(** * python-rocksdb: the extension bridge [rocksdb/_rocksdb.pyx]

    A shallow embedding of the Cython layer that sits between Python callers
    and the storage engine: the status translator, the comparator / merge /
    filter callbacks, the [Options] slots, the read path of [DB] and the
    iterator wrappers.  The engine itself (the C++ library) is taken as an
    interface: a record of the functions the layer calls. *)

From Stdlib Require Import ZArith Bool Lia.
From stdpp Require Import base option list gmap strings pretty.

Open Scope string_scope.

(** ** Python values and exceptions *)

(** The exception classes the module raises or lets through.  The first
    seven are the classes of [errors.py]; [Exception_] is the builtin
    [Exception]; the last two derive from [BaseException] only. *)
Inductive ExcClass :=
| NotFound | Corruption | NotSupported | InvalidArgument
| RocksIOError | MergeInProgress | Incomplete
| Exception_
| TypeError | ValueError | IndexError | AttributeError | StopIteration
| KeyboardInterrupt | SystemExit.

Record PyErr := mkErr { exc_class : ExcClass; exc_msg : string }.

(** [isinstance(e, Exception)]: what an [except Exception:] clause catches. *)
Definition is_Exception (e : PyErr) : bool :=
  match exc_class e with
  | KeyboardInterrupt | SystemExit => false
  | _ => true
  end.

(** Outcome of a Python-level computation. *)
Inductive result (A : Type) :=
| Return (a : A)
| Raise (e : PyErr).
Arguments Return {A} a.
Arguments Raise {A} e.

(** Sequencing: an exception raised by the first step skips the rest. *)
#[global] Instance result_bind : MBind result := fun A B k m =>
  match m with
  | Return a => k a
  | Raise e => Raise e
  end.

(** Plain data: [None], [bool], [int], [str]. *)
Inductive PyScalar :=
| SNone
| SBool (b : bool)
| SInt (n : Z)
| SStr (s : string).

(** What a caller-supplied method may hand back: a scalar or a tuple of
    scalars. *)
Inductive PyData :=
| DScalar (v : PyScalar)
| DTuple (items : list PyScalar).

(** [str(v)] *)
Definition scalar_str (v : PyScalar) : string :=
  match v with
  | SNone => "None"
  | SBool true => "True"
  | SBool false => "False"
  | SInt n => pretty n
  | SStr s => s
  end.

(** [bool(v)] *)
Definition scalar_truth (v : PyScalar) : bool :=
  match v with
  | SNone => false
  | SBool b => b
  | SInt n => negb (n =? 0)%Z
  | SStr s => negb (String.eqb s "")
  end.

(** [v[i]] on the data universe. *)
Definition getitem (v : PyData) (i : nat) : result PyScalar :=
  match v with
  | DTuple items =>
      match items !! i with
      | Some x => Return x
      | None => Raise (mkErr IndexError "tuple index out of range")
      end
  | DScalar (SStr s) =>
      match String.get i s with
      | Some c => Return (SStr (String c EmptyString))
      | None => Raise (mkErr IndexError "string index out of range")
      end
  | DScalar _ => Raise (mkErr TypeError "object is not subscriptable")
  end.

(** Conversion of a Python object to a C++ [string] / [PyString_AsString]. *)
Definition as_string (v : PyScalar) : result string :=
  match v with
  | SStr s => Return s
  | _ => Raise (mkErr TypeError "expected string")
  end.

Definition data_as_string (v : PyData) : result string :=
  match v with
  | DScalar s => as_string s
  | DTuple _ => Raise (mkErr TypeError "expected string")
  end.

(** Conversion of a Python object to a C [int]. *)
Definition data_as_int (v : PyData) : result Z :=
  match v with
  | DScalar (SInt n) => Return n
  | DScalar (SBool b) => Return (if b then 1 else 0)%Z
  | _ => Raise (mkErr TypeError "an integer is required")
  end.

(** Conversion of a Python object to a C++ [bool]: its truth value. *)
Definition data_truth (v : PyData) : bool :=
  match v with
  | DScalar s => scalar_truth s
  | DTuple items => negb (Nat.eqb (length items) 0)
  end.

(** ** Status (status.pxd) *)

(** The engine's [Status] as the layer sees it: the predicates it is asked
    and its text. *)
Record Status := mkStatus {
  ok : bool;
  IsNotFound : bool;
  IsCorruption : bool;
  IsNotSupported : bool;
  IsInvalidArgument : bool;
  IsIOError : bool;
  IsMergeInProgress : bool;
  IsIncomplete : bool;
  ToString : string
}.

(** [check_status] *)
Definition check_status (st : Status) : result unit :=
  if ok st then Return tt
  else if IsNotFound st then Raise (mkErr NotFound (ToString st))
  else if IsCorruption st then Raise (mkErr Corruption (ToString st))
  else if IsNotSupported st then Raise (mkErr NotSupported (ToString st))
  else if IsInvalidArgument st then Raise (mkErr InvalidArgument (ToString st))
  else if IsIOError st then Raise (mkErr RocksIOError (ToString st))
  else if IsMergeInProgress st then Raise (mkErr MergeInProgress (ToString st))
  else if IsIncomplete st then Raise (mkErr Incomplete (ToString st))
  else Raise (mkErr Exception_ ("Unknown error: " +:+ ToString st)).

(** ** Caller-supplied objects (interfaces.py) *)

(** An object handed in by the caller as comparator, merge operator or
    filter policy.  The [isinstance] answers are what the layer tests; each
    method either returns a value or raises. *)
Record UserObject := mkUser {
  ob_str : string;
  is_IComparator : bool;
  is_IAssociativeMergeOperator : bool;
  is_IMergeOperator : bool;
  is_IFilterPolicy : bool;
  ob_name : result PyData;
  ob_compare : string -> string -> result PyData;
  ob_merge : string -> option string -> string -> result PyData;
  ob_full_merge : string -> option string -> list string -> result PyData;
  ob_partial_merge : string -> string -> string -> result PyData;
  ob_create_filter : list string -> result PyData;
  ob_key_may_match : string -> string -> result PyData
}.

(** ** Comparator bridge *)

(** [comparator.Comparator*]: the engine's bytewise singleton or a
    [ComparatorWrapper] around a caller object. *)
Inductive NativeComparator :=
| BytewiseComparatorImpl
| ComparatorWrapper (name : string) (ctx : UserObject).

(** [PyComparator] and its two subclasses. *)
Inductive PyComparator :=
| PyComparator_base
| PyGenericComparator (ob : UserObject) (comparator_ptr : NativeComparator)
| PyBytewiseComparator (comparator_ptr : NativeComparator).

(** A [cdef] function declared with a C or C++ return type and no [except]
    clause cannot hand an exception to its caller: when its body raises,
    the fault is printed on stderr as unraisable and dropped, and the
    function returns the zero value of its return type.  Stderr is not part
    of this model. *)
Definition noexcept {A} (zero : A) (body : result A) : A :=
  match body with
  | Return a => a
  | Raise _ => zero
  end.

(** The body of [compare_callback]: the bare call, with no handler around
    it. *)
Definition compare_callback_body (ctx : UserObject) (a b : string)
    : result Z :=
  r ← ob_compare ctx a b; data_as_int r.

(** [compare_callback]: a [cdef int] function with no [except] clause and
    no logger among its arguments. *)
Definition compare_callback (ctx : UserObject) (a b : string) : Z :=
  noexcept 0%Z (compare_callback_body ctx a b).

(** [PyBytewiseComparator.__cinit__] *)
Definition BytewiseComparator : PyComparator :=
  PyBytewiseComparator BytewiseComparatorImpl.

(** ** Filter policy bridge *)

Inductive NativeFilterPolicy :=
| BloomFilterPolicyImpl (bits_per_key : Z)
| FilterPolicyWrapper (name : string) (ctx : UserObject).

Inductive PyFilterPolicy :=
| PyFilterPolicy_base
| PyGenericFilterPolicy (ob : UserObject) (policy : NativeFilterPolicy)
| PyBloomFilterPolicy (policy : NativeFilterPolicy).

(** The body of [create_filter_callback], giving the new contents of
    [dst]. *)
Definition create_filter_callback_body (ctx : UserObject)
    (keys : list string) (n : nat) (dst : string) : result string :=
  r ← ob_create_filter ctx (take n keys);
  ret ← data_as_string r;
  Return (dst +:+ ret).

(** [create_filter_callback]: a [cdef void] function with no [except]
    clause; returns the contents of [dst] after the call, which a fault
    leaves as they were. *)
Definition create_filter_callback (ctx : UserObject) (keys : list string)
    (n : nat) (dst : string) : string :=
  noexcept dst (create_filter_callback_body ctx keys n dst).

(** The body of [key_may_match_callback]. *)
Definition key_may_match_callback_body (ctx : UserObject)
    (key filt : string) : result bool :=
  r ← ob_key_may_match ctx key filt; Return (data_truth r).

(** [key_may_match_callback]: a [cdef cpp_bool] function with no [except]
    clause. *)
Definition key_may_match_callback (ctx : UserObject) (key filt : string)
    : bool :=
  noexcept false (key_may_match_callback_body ctx key filt).

(** ** Merge operator bridge *)

Inductive NativeMergeOperator :=
| AssociativeMergeOperatorWrapper (name : string) (ctx : UserObject)
| MergeOperatorWrapper (name : string) (ctx : UserObject).

Record PyMergeOperator := mkPyMergeOperator {
  merge_op : NativeMergeOperator;
  merge_ob : UserObject
}.

(** What a merge callback leaves behind: the value returned to the engine,
    the contents of [*new_value] and the lines written to the engine's
    logger. *)
Record MergeOutcome := mkMergeOutcome {
  returned : result bool;
  new_value_out : string;
  log_out : list string
}.

Section MergeCallbacks.
(** [traceback.format_exc()]: the text of the fault being handled, with
    its stack trace. *)
Variable format_exc : PyErr -> string.

(** The part shared by the three callbacks after the caller's method has
    been called: [if ret[0]: new_value.assign(ret[1]); return True] /
    [return False]. *)
Definition store_merged (ret : PyData) : result (option string) :=
  r0 ← getitem ret 0;
  if scalar_truth r0 then
    r1 ← getitem ret 1;
    s ← as_string r1;
    Return (Some s)
  else Return None.

(** [try: ... except Exception: log; return False] around a call, in a
    [cdef cpp_bool] function with no [except] clause: a fault that the
    handler does not catch is dropped at the end of the function, which
    then returns false without having logged or stored anything.  So
    [returned] is always a [Return]. *)
Definition guarded (who : string) (call : result PyData)
    (new_value : string) (log : list string) : MergeOutcome :=
  match ret ← call; store_merged ret with
  | Return (Some s) => mkMergeOutcome (Return true) s log
  | Return None => mkMergeOutcome (Return false) new_value log
  | Raise e =>
      if is_Exception e then
        mkMergeOutcome (Return false) new_value
          (log ++ ["Error in " +:+ who +:+ ": " +:+ format_exc e])
      else mkMergeOutcome (Return false) new_value log
  end.

(** [merge_callback] *)
Definition merge_callback (ctx : UserObject) (key : string)
    (existing_value : option string) (value : string)
    (new_value : string) (log : list string) : MergeOutcome :=
  let py_existing_value := existing_value in
  guarded "merge_callback" (ob_merge ctx key py_existing_value value)
    new_value log.

(** [full_merge_callback] *)
Definition full_merge_callback (ctx : UserObject) (key : string)
    (existing_value : option string) (operand_list : list string)
    (new_value : string) (log : list string) : MergeOutcome :=
  let py_existing_value := existing_value in
  guarded "full_merge_callback"
    (ob_full_merge ctx key py_existing_value operand_list) new_value log.

(** [partial_merge_callback] *)
Definition partial_merge_callback (ctx : UserObject) (key : string)
    (left_op right_op : string) (new_value : string) (log : list string)
    : MergeOutcome :=
  guarded "partial_merge_callback"
    (ob_partial_merge ctx key left_op right_op) new_value log.
End MergeCallbacks.

(** ** Cache handles *)

(** [shared_ptr[cache.Cache]]: the cache made by [NewLRUCache]. *)
Record NativeCache := mkNativeCache {
  capacity : Z;
  shard_bits : option Z;
  rm_scan_count_limit : option Z
}.

Inductive PyCache :=
| PyCache_base
| PyLRUCache (cache_ob : NativeCache).

(** [PyLRUCache.__cinit__] *)
Definition LRUCache (capacity : Z) (shard_bits rm_scan_count_limit : option Z)
    : PyCache :=
  match shard_bits with
  | Some sb =>
      match rm_scan_count_limit with
      | Some lim => PyLRUCache (mkNativeCache capacity (Some sb) (Some lim))
      | None => PyLRUCache (mkNativeCache capacity (Some sb) None)
      end
  | None => PyLRUCache (mkNativeCache capacity None None)
  end.

(** ** Values reaching the module from Python code *)

(** [snapshot.Snapshot*] held by a [Snapshot] object. *)
Record Snapshot := mkSnapshot { snapshot_ptr : nat }.

Inductive PyValue :=
| VScalar (v : PyScalar)
| VTuple (items : list PyScalar)
| VUser (ob : UserObject)
| VComparator (c : PyComparator)
| VFilterPolicy (p : PyFilterPolicy)
| VCache (c : PyCache)
| VSnapshot (s : Snapshot).

Definition VNone : PyValue := VScalar SNone.
Definition VStr (s : string) : PyValue := VScalar (SStr s).
Definition VBool (b : bool) : PyValue := VScalar (SBool b).

(** [str(value)].  The address part of the default rendering of an extension
    object is left out; a tuple is never rendered as a whole by this module
    (see [percent_s]). *)
Definition py_str (value : PyValue) : string :=
  match value with
  | VScalar v => scalar_str v
  | VTuple _ => "(...)"
  | VUser ob => ob_str ob
  | VComparator PyComparator_base => "<rocksdb._rocksdb.PyComparator object>"
  | VComparator (PyGenericComparator _ _) =>
      "<rocksdb._rocksdb.PyGenericComparator object>"
  | VComparator (PyBytewiseComparator _) =>
      "<rocksdb._rocksdb.PyBytewiseComparator object>"
  | VFilterPolicy PyFilterPolicy_base =>
      "<rocksdb._rocksdb.PyFilterPolicy object>"
  | VFilterPolicy (PyGenericFilterPolicy _ _) =>
      "<rocksdb._rocksdb.PyGenericFilterPolicy object>"
  | VFilterPolicy (PyBloomFilterPolicy _) =>
      "<rocksdb._rocksdb.PyBloomFilterPolicy object>"
  | VCache PyCache_base => "<rocksdb._rocksdb.PyCache object>"
  | VCache (PyLRUCache _) => "<rocksdb._rocksdb.PyLRUCache object>"
  | VSnapshot _ => "<rocksdb._rocksdb.Snapshot object>"
  end.

(** [before + "%s" + after % value]: a tuple on the right of [%] is taken as
    the argument list, so only a one-element tuple fits the single [%s]. *)
Definition percent_s (before after : string) (value : PyValue)
    : result string :=
  match value with
  | VTuple [x] => Return (before +:+ scalar_str x +:+ after)
  | VTuple [] =>
      Raise (mkErr TypeError "not enough arguments for format string")
  | VTuple (_ :: _ :: _) =>
      Raise (mkErr TypeError
               "not all arguments converted during string formatting")
  | _ => Return (before +:+ py_str value +:+ after)
  end.

(** [raise cls(before + "%s" + after % value)] *)
Definition raise_fmt {A} (cls : ExcClass) (before after : string)
    (value : PyValue) : result A :=
  msg ← percent_s before after value; Raise (mkErr cls msg).

(** [bool(value)] *)
Definition py_truth (value : PyValue) : bool :=
  match value with
  | VScalar v => scalar_truth v
  | VTuple items => negb (Nat.eqb (length items) 0)
  | _ => true
  end.

(** [value == s] for a string constant [s]. *)
Definition eq_str (value : PyValue) (s : string) : bool :=
  match value with
  | VScalar (SStr t) => String.eqb t s
  | _ => false
  end.

(** ** Options *)

(** [CompressionType]: the class attributes are plain strings. *)
Module CompressionType.
Definition no_compression : string := "no_compression".
Definition snappy_compression : string := "snappy_compression".
Definition zlib_compression : string := "zlib_compression".
Definition bzip2_compression : string := "bzip2_compression".
End CompressionType.

(** [options.CompressionType]; [kOtherCompression] stands for any further
    enumerant of the engine. *)
Inductive NativeCompression :=
| kNoCompression
| kSnappyCompression
| kZlibCompression
| kBZip2Compression
| kOtherCompression (code : Z).

(** The fields of [options.Options] the slots write to.  The scalar knobs
    are kept by name, as the values assigned; their conversion to the C++
    field types is not part of this model. *)
Record NativeOptions := mkNativeOptions {
  n_comparator : option NativeComparator;
  n_merge_operator : option NativeMergeOperator;
  n_filter_policy : option NativeFilterPolicy;
  n_block_cache : option NativeCache;
  n_block_cache_compressed : option NativeCache;
  n_compression : NativeCompression;
  n_scalars : gmap string PyValue
}.

(** [new options.Options()]: the engine's defaults. *)
Definition default_native_options : NativeOptions :=
  mkNativeOptions (Some BytewiseComparatorImpl) None None None None
                  kSnappyCompression ∅.

(** [cdef class Options] *)
Record Options := mkOptions {
  opts : NativeOptions;
  py_comparator : PyComparator;
  py_merge_operator : option PyMergeOperator;
  py_filter_policy : option PyFilterPolicy;
  py_block_cache : option PyCache;
  py_block_cache_compressed : option PyCache
}.

(** A property setter: what it raises, if anything, and the object after. *)
Definition SetOutcome : Type := result unit * Options.

Definition with_opts (f : NativeOptions -> NativeOptions) (self : Options)
    : Options :=
  mkOptions (f (opts self)) (py_comparator self) (py_merge_operator self)
            (py_filter_policy self) (py_block_cache self)
            (py_block_cache_compressed self).

(** *** compression *)

Definition compression_get (self : Options) : result PyValue :=
  match n_compression (opts self) with
  | kNoCompression => Return (VStr CompressionType.no_compression)
  | kSnappyCompression => Return (VStr CompressionType.snappy_compression)
  | kZlibCompression => Return (VStr CompressionType.zlib_compression)
  | kBZip2Compression => Return (VStr CompressionType.bzip2_compression)
  | kOtherCompression code =>
      raise_fmt Exception_ "Unknonw type: " "" (VScalar (SInt code))
  end.

Definition store_compression (c : NativeCompression) (self : Options)
    : Options :=
  with_opts (fun o =>
    mkNativeOptions (n_comparator o) (n_merge_operator o) (n_filter_policy o)
      (n_block_cache o) (n_block_cache_compressed o) c (n_scalars o)) self.

Definition compression_set (self : Options) (value : PyValue) : SetOutcome :=
  if eq_str value CompressionType.no_compression then
    (Return tt, store_compression kNoCompression self)
  else if eq_str value CompressionType.snappy_compression then
    (Return tt, store_compression kSnappyCompression self)
  else if eq_str value CompressionType.zlib_compression then
    (Return tt, store_compression kZlibCompression self)
  else if eq_str value CompressionType.bzip2_compression then
    (Return tt, store_compression kBZip2Compression self)
  else (raise_fmt TypeError "Unknown compression: " "" value, self).

(** *** comparator *)

Definition get_comparator (c : PyComparator) : option NativeComparator :=
  match c with
  | PyComparator_base => None
  | PyGenericComparator _ comparator_ptr => Some comparator_ptr
  | PyBytewiseComparator comparator_ptr => Some comparator_ptr
  end.

Definition comparator_get_ob (c : PyComparator) : PyValue :=
  match c with
  | PyComparator_base => VNone
  | PyGenericComparator ob _ => VUser ob
  | PyBytewiseComparator _ => VComparator c
  end.

(** [isinstance(value, IComparator)] *)
Definition isinstance_IComparator (value : PyValue) : bool :=
  match value with
  | VUser ob => is_IComparator ob
  | _ => false
  end.

(** [PyGenericComparator.__cinit__] *)
Definition PyGenericComparator_cinit (ob : PyValue) : result PyComparator :=
  match ob with
  | VUser u =>
      if is_IComparator u then
        n ← ob_name u;
        name ← data_as_string n;
        Return (PyGenericComparator u (ComparatorWrapper name u))
      else raise_fmt TypeError "Cannot set comparator: " "" ob
  | _ => raise_fmt TypeError "Cannot set comparator: " "" ob
  end.

Definition store_comparator (c : PyComparator) (self : Options) : Options :=
  let self1 :=
    mkOptions (opts self) c (py_merge_operator self) (py_filter_policy self)
              (py_block_cache self) (py_block_cache_compressed self) in
  with_opts (fun o =>
    mkNativeOptions (get_comparator (py_comparator self1))
      (n_merge_operator o) (n_filter_policy o) (n_block_cache o)
      (n_block_cache_compressed o) (n_compression o) (n_scalars o)) self1.

Definition comparator_get (self : Options) : PyValue :=
  comparator_get_ob (py_comparator self).

Definition comparator_set (self : Options) (value : PyValue) : SetOutcome :=
  match value with
  | VComparator c =>
      match get_comparator c with
      | None => (raise_fmt Exception_ "Cannot set " " as comparator" value, self)
      | Some _ => (Return tt, store_comparator c self)
      end
  | _ =>
      match PyGenericComparator_cinit value with
      | Raise e => (Raise e, self)
      | Return c => (Return tt, store_comparator c self)
      end
  end.

(** *** merge_operator *)

(** [PyMergeOperator.__cinit__] *)
Definition PyMergeOperator_cinit (ob : PyValue) : result PyMergeOperator :=
  match ob with
  | VUser u =>
      if is_IAssociativeMergeOperator u then
        n ← ob_name u;
        name ← data_as_string n;
        Return (mkPyMergeOperator (AssociativeMergeOperatorWrapper name u) u)
      else if is_IMergeOperator u then
        n ← ob_name u;
        name ← data_as_string n;
        Return (mkPyMergeOperator (MergeOperatorWrapper name u) u)
      else raise_fmt TypeError "Cannot set MergeOperator: " "" ob
  | _ => raise_fmt TypeError "Cannot set MergeOperator: " "" ob
  end.

Definition merge_operator_get (self : Options) : PyValue :=
  match py_merge_operator self with
  | None => VNone
  | Some m => VUser (merge_ob m)
  end.

Definition store_merge_operator (m : PyMergeOperator) (self : Options)
    : Options :=
  let self1 :=
    mkOptions (opts self) (py_comparator self) (Some m) (py_filter_policy self)
              (py_block_cache self) (py_block_cache_compressed self) in
  with_opts (fun o =>
    mkNativeOptions (n_comparator o) (Some (merge_op m)) (n_filter_policy o)
      (n_block_cache o) (n_block_cache_compressed o) (n_compression o)
      (n_scalars o)) self1.

Definition merge_operator_set (self : Options) (value : PyValue)
    : SetOutcome :=
  match PyMergeOperator_cinit value with
  | Raise e => (Raise e, self)
  | Return m => (Return tt, store_merge_operator m self)
  end.

(** *** filter_policy *)

Definition get_policy (p : PyFilterPolicy) : option NativeFilterPolicy :=
  match p with
  | PyFilterPolicy_base => None
  | PyGenericFilterPolicy _ policy => Some policy
  | PyBloomFilterPolicy policy => Some policy
  end.

Definition filter_policy_get_ob (p : PyFilterPolicy) : PyValue :=
  match p with
  | PyFilterPolicy_base => VNone
  | PyGenericFilterPolicy ob _ => VUser ob
  | PyBloomFilterPolicy _ => VFilterPolicy p
  end.

(** [PyGenericFilterPolicy.__cinit__] *)
Definition PyGenericFilterPolicy_cinit (ob : PyValue)
    : result PyFilterPolicy :=
  match ob with
  | VUser u =>
      if is_IFilterPolicy u then
        n ← ob_name u;
        name ← data_as_string n;
        Return (PyGenericFilterPolicy u (FilterPolicyWrapper name u))
      else raise_fmt TypeError "Cannot set filter policy: " "" ob
  | _ => raise_fmt TypeError "Cannot set filter policy: " "" ob
  end.

Definition filter_policy_get (self : Options) : PyValue :=
  match py_filter_policy self with
  | None => VNone
  | Some p => filter_policy_get_ob p
  end.

Definition store_filter_policy (p : PyFilterPolicy) (self : Options)
    : Options :=
  let self1 :=
    mkOptions (opts self) (py_comparator self) (py_merge_operator self)
              (Some p) (py_block_cache self) (py_block_cache_compressed self) in
  with_opts (fun o =>
    mkNativeOptions (n_comparator o) (n_merge_operator o) (get_policy p)
      (n_block_cache o) (n_block_cache_compressed o) (n_compression o)
      (n_scalars o)) self1.

Definition filter_policy_set (self : Options) (value : PyValue) : SetOutcome :=
  match value with
  | VFilterPolicy p =>
      match get_policy p with
      | None => (raise_fmt Exception_ "Cannot set filter policy: " "" value, self)
      | Some _ => (Return tt, store_filter_policy p self)
      end
  | _ =>
      match PyGenericFilterPolicy_cinit value with
      | Raise e => (Raise e, self)
      | Return p => (Return tt, store_filter_policy p self)
      end
  end.

(** *** block_cache and block_cache_compressed *)

Definition get_cache (c : PyCache) : option NativeCache :=
  match c with
  | PyCache_base => None
  | PyLRUCache cache_ob => Some cache_ob
  end.

Definition cache_get_ob (c : PyCache) : PyValue :=
  match c with
  | PyCache_base => VNone
  | PyLRUCache _ => VCache c
  end.

Definition block_cache_get (self : Options) : PyValue :=
  match py_block_cache self with
  | None => VNone
  | Some c => cache_get_ob c
  end.

Definition store_block_cache (c : option PyCache) (self : Options) : Options :=
  let self1 :=
    mkOptions (opts self) (py_comparator self) (py_merge_operator self)
              (py_filter_policy self) c (py_block_cache_compressed self) in
  with_opts (fun o =>
    mkNativeOptions (n_comparator o) (n_merge_operator o) (n_filter_policy o)
      (c ≫= get_cache) (n_block_cache_compressed o) (n_compression o)
      (n_scalars o)) self1.

Definition block_cache_set (self : Options) (value : PyValue) : SetOutcome :=
  match value with
  | VScalar SNone => (Return tt, store_block_cache None self)
  | VCache c => (Return tt, store_block_cache (Some c) self)
  | _ => (raise_fmt TypeError "" " is not a Cache" value, self)
  end.

Definition block_cache_compressed_get (self : Options) : PyValue :=
  match py_block_cache_compressed self with
  | None => VNone
  | Some c => cache_get_ob c
  end.

Definition store_block_cache_compressed (c : option PyCache) (self : Options)
    : Options :=
  let self1 :=
    mkOptions (opts self) (py_comparator self) (py_merge_operator self)
              (py_filter_policy self) (py_block_cache self) c in
  with_opts (fun o =>
    mkNativeOptions (n_comparator o) (n_merge_operator o) (n_filter_policy o)
      (n_block_cache o) (c ≫= get_cache) (n_compression o) (n_scalars o))
    self1.

Definition block_cache_compressed_set (self : Options) (value : PyValue)
    : SetOutcome :=
  match value with
  | VScalar SNone => (Return tt, store_block_cache_compressed None self)
  | VCache c => (Return tt, store_block_cache_compressed (Some c) self)
  | _ => (raise_fmt TypeError "" " is not a Cache" value, self)
  end.

(** *** the scalar knobs and [__init__] *)

(** The properties that pass a value straight to the field of the same
    name. *)
Definition scalar_knobs : list string :=
  ["create_if_missing"; "error_if_exists"; "paranoid_checks";
   "write_buffer_size"; "max_write_buffer_number";
   "min_write_buffer_number_to_merge"; "max_open_files"; "block_size";
   "block_restart_interval"; "whole_key_filtering"; "num_levels";
   "level0_file_num_compaction_trigger"; "level0_slowdown_writes_trigger";
   "level0_stop_writes_trigger"; "max_mem_compaction_level";
   "target_file_size_base"; "target_file_size_multiplier";
   "max_bytes_for_level_base"; "max_bytes_for_level_multiplier";
   "max_bytes_for_level_multiplier_additional"; "expanded_compaction_factor";
   "source_compaction_factor"; "max_grandparent_overlap_factor";
   "disable_data_sync"; "use_fsync"; "db_stats_log_interval"; "db_log_dir";
   "wal_dir"; "disable_seek_compaction";
   "delete_obsolete_files_period_micros"; "max_background_compactions";
   "max_background_flushes"; "max_log_file_size"; "log_file_time_to_roll";
   "keep_log_file_num"; "soft_rate_limit"; "hard_rate_limit";
   "rate_limit_delay_max_milliseconds"; "max_manifest_file_size";
   "no_block_cache"; "table_cache_numshardbits";
   "table_cache_remove_scan_count_limit"; "arena_block_size";
   "disable_auto_compactions"; "wal_ttl_seconds"; "wal_size_limit_mb";
   "manifest_preallocation_size"; "purge_redundant_kvs_while_flush";
   "allow_os_buffer"; "allow_mmap_reads"; "allow_mmap_writes";
   "is_fd_close_on_exec"; "skip_log_error_on_recovery";
   "stats_dump_period_sec"; "block_size_deviation"; "advise_random_on_open";
   "use_adaptive_mutex"; "bytes_per_sync"; "filter_deletes";
   "max_sequential_skip_in_iterations"; "inplace_update_support";
   "inplace_update_num_locks"].

(** A scalar property: the value is kept under the name of the field.  The
    conversion of the value to the C++ type of the field, which raises
    [TypeError] or [OverflowError] on a value that does not fit and then
    leaves the field alone, is not modelled: options.pxd, which declares
    the types of the fields, is not among the sources. *)
Definition scalar_set (name : string) (self : Options) (value : PyValue)
    : SetOutcome :=
  (Return tt,
   with_opts (fun o =>
     mkNativeOptions (n_comparator o) (n_merge_operator o) (n_filter_policy o)
       (n_block_cache o) (n_block_cache_compressed o) (n_compression o)
       (<[name := value]> (n_scalars o))) self).

(** [setattr(self, key, value)] *)
Definition Options_setattr (self : Options) (key : string) (value : PyValue)
    : SetOutcome :=
  if String.eqb key "compression" then compression_set self value
  else if String.eqb key "comparator" then comparator_set self value
  else if String.eqb key "merge_operator" then merge_operator_set self value
  else if String.eqb key "filter_policy" then filter_policy_set self value
  else if String.eqb key "block_cache" then block_cache_set self value
  else if String.eqb key "block_cache_compressed" then
    block_cache_compressed_set self value
  else if bool_decide (key ∈ scalar_knobs) then scalar_set key self value
  else (Raise (mkErr AttributeError
                 ("object has no attribute '" +:+ key +:+ "'")), self).

(** [for key, value in kwargs.items(): setattr(self, key, value)] *)
Fixpoint Options_init_loop (self : Options) (kwargs : list (string * PyValue))
    : SetOutcome :=
  match kwargs with
  | [] => (Return tt, self)
  | (key, value) :: rest =>
      match Options_setattr self key value with
      | (Return _, self') => Options_init_loop self' rest
      | (Raise e, self') => (Raise e, self')
      end
  end.

(** [Options.__cinit__] followed by [Options.__init__] on the keyword
    arguments [kwargs]. *)
Definition Options_init (kwargs : list (string * PyValue)) : SetOutcome :=
  let self :=
    mkOptions default_native_options BytewiseComparator None None None None in
  Options_init_loop self kwargs.

(** ** DB: the read path *)

Inductive ReadTier := kReadAllTier | kBlockCacheTier.

(** [options.ReadOptions]; [snapshot] is the pointer, [None] for NULL. *)
Record ReadOptions := mkReadOptions {
  verify_checksums : bool;
  fill_cache : bool;
  prefix_seek : bool;
  snapshot : option nat;
  read_tier : ReadTier
}.

(** The engine calls of the read path (db.pxd).  An output parameter is an
    argument (its content before the call) and a component of the result
    (its content after). *)
Record Engine := mkEngine {
  Get : ReadOptions -> string -> Status * string;
  MultiGet : ReadOptions -> list string -> list string
             -> list Status * list string;
  KeyMayExist : ReadOptions -> string -> string -> bool * string;
  KeyMayExist_found : ReadOptions -> string -> string -> bool
                      -> bool * string * bool
}.

Record DB := mkDB { db_opts : Options; db : Engine }.

(** The dictionary [locals()] of [__parse_read_opts]: its five names. *)
Record PyReadOpts := mkPyReadOpts {
  py_verify_checksums : PyValue;
  py_fill_cache : PyValue;
  py_prefix_seek : PyValue;
  py_snapshot : PyValue;
  py_read_tier : PyValue
}.

Definition read_opt_names : list string :=
  ["verify_checksums"; "fill_cache"; "prefix_seek"; "snapshot"; "read_tier"].

(** One parameter of a call: by position, by keyword, or its default. *)
Definition bind_param (args : list PyValue) (kwargs : gmap string PyValue)
    (i : nat) (name : string) (default : PyValue) : result PyValue :=
  match args !! i, kwargs !! name with
  | Some _, Some _ =>
      Raise (mkErr TypeError
               ("got multiple values for keyword argument '" +:+ name +:+ "'"))
  | Some v, None => Return v
  | None, Some v => Return v
  | None, None => Return default
  end.

(** [__parse_read_opts], called with positional and keyword arguments. *)
Definition parse_read_opts (args : list PyValue) (kwargs : gmap string PyValue)
    : result PyReadOpts :=
  if (5 <? length args)%nat then
    Raise (mkErr TypeError "takes at most 5 arguments")
  else if negb (bool_decide (map_Forall (fun k _ => k ∈ read_opt_names) kwargs))
  then Raise (mkErr TypeError "got an unexpected keyword argument")
  else
    vc ← bind_param args kwargs 0 "verify_checksums" (VBool false);
    fc ← bind_param args kwargs 1 "fill_cache" (VBool true);
    ps ← bind_param args kwargs 2 "prefix_seek" (VBool false);
    sn ← bind_param args kwargs 3 "snapshot" VNone;
    rt ← bind_param args kwargs 4 "read_tier" (VStr "all");
    Return (mkPyReadOpts vc fc ps sn rt).

(** [<Snapshot?>value] followed by [.ptr], for a value that is not [None]. *)
Definition snapshot_cast (value : PyValue) : result nat :=
  match value with
  | VSnapshot s => Return (snapshot_ptr s)
  | _ => Raise (mkErr TypeError "Cannot convert to rocksdb._rocksdb.Snapshot")
  end.

(** Modelled from the spec: the default-constructed [options.ReadOptions]
    of the engine, whose declaration (options.pxd and the engine's header)
    is not among the sources; the defaults are those of section 4.7. *)
Definition ReadOptions_new : ReadOptions :=
  mkReadOptions false true false None kReadAllTier.

(** The body of [DB.build_read_opts]. *)
Definition build_read_opts_body (py_opts : PyReadOpts) : result ReadOptions :=
  let verify_checksums := py_truth (py_verify_checksums py_opts) in
  let fill_cache := py_truth (py_fill_cache py_opts) in
  let prefix_seek := py_truth (py_prefix_seek py_opts) in
  snapshot ← match py_snapshot py_opts with
             | VScalar SNone => Return None
             | v => p ← snapshot_cast v; Return (Some p)
             end;
  if eq_str (py_read_tier py_opts) "all" then
    Return (mkReadOptions verify_checksums fill_cache prefix_seek snapshot
                          kReadAllTier)
  else if eq_str (py_read_tier py_opts) "cache" then
    Return (mkReadOptions verify_checksums fill_cache prefix_seek snapshot
                          kBlockCacheTier)
  else Raise (mkErr ValueError "Invalid read_tier").

(** [DB.build_read_opts]: a [cdef] method returning [options.ReadOptions]
    by value, with no [except] clause: a fault of the body is dropped and
    the caller gets default-constructed read options. *)
Definition build_read_opts (py_opts : PyReadOpts) : ReadOptions :=
  noexcept ReadOptions_new (build_read_opts_body py_opts).

(** [build_read_opts] applied to what [__parse_read_opts] returns; only the
    binding of the arguments by [__parse_read_opts] can raise. *)
Definition read_opts_of (args : list PyValue) (kwargs : gmap string PyValue)
    : result ReadOptions :=
  py_opts ← parse_read_opts args kwargs; Return (build_read_opts py_opts).

(** [DB.get]: the bytes found, or [None]. *)
Definition DB_get (self : DB) (key : string) (args : list PyValue)
    (kwargs : gmap string PyValue) : result (option string) :=
  ro ← read_opts_of args kwargs;
  let '(st, res) := Get (db self) ro key in
  if ok st then Return (Some res)
  else if IsNotFound st then Return None
  else _ ← check_status st; Return None.

(** The loop of [DB.multi_get] over [range(len(keys))], from [index] on.
    The outer [None] is an index past the end of a C++ vector, which has no
    defined behaviour. *)
Fixpoint multi_get_loop (keys : list string) (res : list Status)
    (values : list string) (indices : list nat)
    (ret_dict : gmap string (option string))
    : option (result (gmap string (option string))) :=
  match indices with
  | [] => Some (Return ret_dict)
  | index :: rest =>
      match keys !! index, res !! index, values !! index with
      | Some k, Some st, Some v =>
          if ok st then
            multi_get_loop keys res values rest (<[k := Some v]> ret_dict)
          else if IsNotFound st then
            multi_get_loop keys res values rest (<[k := None]> ret_dict)
          else
            match check_status st with
            | Raise e => Some (Raise e)
            | Return _ => multi_get_loop keys res values rest ret_dict
            end
      | _, _, _ => None
      end
  end.

(** [DB.multi_get] *)
Definition DB_multi_get (self : DB) (keys : list string) (args : list PyValue)
    (kwargs : gmap string PyValue)
    : option (result (gmap string (option string))) :=
  let values := replicate (length keys) "" in
  let c_keys := keys in
  match read_opts_of args kwargs with
  | Raise e => Some (Raise e)
  | Return ro =>
      let '(res, values) := MultiGet (db self) ro c_keys values in
      multi_get_loop keys res values (seq 0 (length keys)) ∅
  end.

(** [DB.key_may_exist] *)
Definition DB_key_may_exist (self : DB) (key : string) (fetch : PyValue)
    (args : list PyValue) (kwargs : gmap string PyValue)
    : result (bool * option string) :=
  let value := "" in
  opts ← read_opts_of args kwargs;
  if py_truth fetch then
    let value_found := false in
    let '(exists_, value, value_found) :=
      KeyMayExist_found (db self) opts key value value_found in
    if exists_ then
      if value_found then Return (true, Some value)
      else Return (true, None)
    else Return (false, None)
  else
    let '(exists_, value) := KeyMayExist (db self) opts key value in
    Return (exists_, None).

(** ** Iterators *)

(** [iterator.Iterator] (iterator.pxd): the engine's cursor, over a state
    [T] of its own. *)
Record IteratorOps (T : Type) := mkIteratorOps {
  Valid : T -> bool;
  Next : T -> T;
  Prev : T -> T;
  SeekToFirst : T -> T;
  SeekToLast : T -> T;
  Seek : string -> T -> T;
  key : T -> string;
  value : T -> string
}.
Arguments Valid {T}.
Arguments Next {T}.
Arguments Prev {T}.
Arguments SeekToFirst {T}.
Arguments SeekToLast {T}.
Arguments Seek {T}.
Arguments key {T}.
Arguments value {T}.

(** The subclass decides [get_ob]. *)
Inductive IteratorClass :=
| BaseIterator_cls | KeysIterator | ValuesIterator | ItemsIterator.

(** A [BaseIterator] object: [it_id] is the identity of the Python object,
    [ptr] the address of the engine's cursor ([None] for NULL).  No method
    assigns either after [DB.iterkeys] and its siblings have made the
    object, so holding a reference to it is holding this record. *)
Record BaseIterator := mkBaseIterator {
  it_id : nat;
  it_cls : IteratorClass;
  ptr : option nat
}.

(** A [ReversedIterator] object: [it] refers to the wrapped iterator. *)
Record ReversedIterator := mkReversedIterator { it : BaseIterator }.

Section Iterators.
Context {T : Type} (E : IteratorOps T).

(** The engine cursors that are alive, by address. *)
Local Abbreviation heap := (gmap nat T).

Definition get_ob (self : BaseIterator) (c : T) : PyValue :=
  match it_cls self with
  | BaseIterator_cls => VNone
  | KeysIterator => VStr (key E c)
  | ValuesIterator => VStr (value E c)
  | ItemsIterator => VTuple [SStr (key E c); SStr (value E c)]
  end.

(** A call [self.ptr.m()] that moves the cursor; [None] when [ptr] is NULL
    or dangling. *)
Definition on_ptr (self : BaseIterator) (m : T -> T) (h : heap)
    : option heap :=
  p ← ptr self; c ← h !! p; Some (<[p := m c]> h).

(** What [self.ptr] points to. *)
Definition deref (self : BaseIterator) (h : heap) : option T :=
  p ← ptr self; h !! p.

(** [BaseIterator.__next__] *)
Definition BaseIterator_next (self : BaseIterator) (h : heap)
    : option (result PyValue * heap) :=
  c ← deref self h;
  if negb (Valid E c) then
    Some (Raise (mkErr StopIteration ""), h)
  else
    let ret := get_ob self c in
    h' ← on_ptr self (Next E) h;
    Some (Return ret, h').

(** [BaseIterator.__reversed__] *)
Definition BaseIterator_reversed (self : BaseIterator) : ReversedIterator :=
  mkReversedIterator self.

Definition BaseIterator_seek_to_first (self : BaseIterator) (h : heap)
    : option heap :=
  on_ptr self (SeekToFirst E) h.

Definition BaseIterator_seek_to_last (self : BaseIterator) (h : heap)
    : option heap :=
  on_ptr self (SeekToLast E) h.

Definition BaseIterator_seek (self : BaseIterator) (k : string) (h : heap)
    : option heap :=
  on_ptr self (Seek E k) h.

Definition ReversedIterator_seek_to_first (self : ReversedIterator)
    (h : heap) : option heap :=
  BaseIterator_seek_to_first (it self) h.

Definition ReversedIterator_seek_to_last (self : ReversedIterator)
    (h : heap) : option heap :=
  BaseIterator_seek_to_last (it self) h.

Definition ReversedIterator_seek (self : ReversedIterator) (k : string)
    (h : heap) : option heap :=
  BaseIterator_seek (it self) k h.

(** [ReversedIterator.__reversed__] *)
Definition ReversedIterator_reversed (self : ReversedIterator)
    : BaseIterator :=
  it self.

(** [ReversedIterator.__next__] *)
Definition ReversedIterator_next (self : ReversedIterator) (h : heap)
    : option (result PyValue * heap) :=
  c ← deref (it self) h;
  if negb (Valid E c) then
    Some (Raise (mkErr StopIteration ""), h)
  else
    let ret := get_ob (it self) c in
    h' ← on_ptr (it self) (Prev E) h;
    Some (Return ret, h').
End Iterators.

(** The same cursor with [Next] and [Prev] exchanged. *)
Definition swap_next_prev {T} (E : IteratorOps T) : IteratorOps T :=
  mkIteratorOps T (Valid E) (Prev E) (Next E) (SeekToFirst E) (SeekToLast E)
                (Seek E) (key E) (value E).

(** A cursor over a sorted list of entries, for running the iterators: the
    position is an index, [None] when the cursor is not on an entry. *)
Module ListCursor.
Record t := mk { entries : list (string * string); pos : option nat }.

Definition at_ (entries : list (string * string)) (i : nat) : t :=
  mk entries (if (i <? length entries)%nat then Some i else None).

Definition current (c : t) : option (string * string) :=
  i ← pos c; entries c !! i.

(** Index of the first entry whose key is not below [k]. *)
Fixpoint lower_bound (k : string) (entries : list (string * string)) : nat :=
  match entries with
  | [] => 0
  | e :: rest => if String.ltb e.1 k then S (lower_bound k rest) else 0
  end.

Definition ops : IteratorOps t :=
  mkIteratorOps t
    (fun c => bool_decide (is_Some (current c)))
    (fun c => match pos c with
              | Some i => at_ (entries c) (S i)
              | None => c
              end)
    (fun c => match pos c with
              | Some (S i) => at_ (entries c) i
              | _ => mk (entries c) None
              end)
    (fun c => at_ (entries c) 0)
    (fun c => at_ (entries c) (length (entries c) - 1))
    (fun k c => at_ (entries c) (lower_bound k (entries c)))
    (fun c => from_option fst "" (current c))
    (fun c => from_option snd "" (current c)).
End ListCursor.

(** ** The classification of section 4.1, as the specification words it *)

(** The error kinds in their order of priority, each with the status
    predicate that selects it. *)
Definition spec_priority : list ((Status -> bool) * ExcClass) :=
  [(IsNotFound, NotFound); (IsCorruption, Corruption);
   (IsNotSupported, NotSupported); (IsInvalidArgument, InvalidArgument);
   (IsIOError, RocksIOError); (IsMergeInProgress, MergeInProgress);
   (IsIncomplete, Incomplete)].

(** The first kind of the list whose predicate holds, else the unknown
    error (the builtin [Exception]). *)
Definition spec_error_kind (st : Status) : ExcClass :=
  from_option snd Exception_ (List.find (fun p => p.1 st) spec_priority).

(** A per-key status that [multi_get] reports as an error. *)
Definition is_error (st : Status) : bool := negb (ok st) && negb (IsNotFound st).

(** The closed set of compression names. *)
Definition compression_names : list string :=
  [CompressionType.no_compression; CompressionType.snappy_compression;
   CompressionType.zlib_compression; CompressionType.bzip2_compression].

Definition is_compression_name (value : PyValue) : bool :=
  match value with
  | VScalar (SStr s) => bool_decide (s ∈ compression_names)
  | _ => false
  end.

(** The objects the comparator slot turns down: a bare [PyComparator], or
    anything else that is not an instance of the [Comparator] interface. *)
Definition lacks_comparator_capability (value : PyValue) : bool :=
  match value with
  | VComparator c => match get_comparator c with None => true | Some _ => false end
  | _ => negb (isinstance_IComparator value)
  end.

(** A [snapshot] entry that [build_read_opts] can use. *)
Definition usable_snapshot (value : PyValue) : bool :=
  match value with
  | VScalar SNone | VSnapshot _ => true
  | _ => false
  end.

(** ** Objects and engines to run the definitions on *)

Definition no_method {A} (name : string) : result A :=
  Raise (mkErr AttributeError ("object has no attribute '" +:+ name +:+ "'")).

(** A comparator that implements the interface and whose [compare] raises. *)
Definition faulty_comparator : UserObject :=
  mkUser "<FaultyComparator object>" true false false false
    (Return (DScalar (SStr "faulty")))
    (fun _ _ => Raise (mkErr ValueError "cannot compare"))
    (fun _ _ _ => no_method "merge")
    (fun _ _ _ => no_method "full_merge")
    (fun _ _ _ => no_method "partial_merge")
    (fun _ => no_method "create_filter")
    (fun _ _ => no_method "key_may_match").

(** A filter policy that implements the interface and whose methods raise. *)
Definition faulty_filter : UserObject :=
  mkUser "<FaultyFilter object>" false false false true
    (Return (DScalar (SStr "faulty")))
    (fun _ _ => no_method "compare")
    (fun _ _ _ => no_method "merge")
    (fun _ _ _ => no_method "full_merge")
    (fun _ _ _ => no_method "partial_merge")
    (fun _ => Raise (mkErr ValueError "cannot build"))
    (fun _ _ => Raise (mkErr ValueError "cannot probe")).

(** An associative merge operator whose [merge] raises [cls]. *)
Definition faulty_merge (cls : ExcClass) : UserObject :=
  mkUser "<FaultyMerge object>" false true false false
    (Return (DScalar (SStr "faulty")))
    (fun _ _ => no_method "compare")
    (fun _ _ _ => Raise (mkErr cls "cannot merge"))
    (fun _ _ _ => no_method "full_merge")
    (fun _ _ _ => no_method "partial_merge")
    (fun _ => no_method "create_filter")
    (fun _ _ => no_method "key_may_match").

Definition st_ok : Status :=
  mkStatus true false false false false false false false "OK".
Definition st_not_found : Status :=
  mkStatus false true false false false false false false "NotFound: ".
Definition st_corruption : Status :=
  mkStatus false false true false false false false false
           "Corruption: bad block".

(** A store holding ["a" -> "1"], with a damaged entry at ["bad"]. *)
Definition demo_lookup (k : string) : Status * string :=
  if String.eqb k "a" then (st_ok, "1")
  else if String.eqb k "bad" then (st_corruption, "")
  else (st_not_found, "").

Definition demo_engine : Engine :=
  mkEngine
    (fun _ k => demo_lookup k)
    (fun _ keys _ => (map (fun k => (demo_lookup k).1) keys,
                      map (fun k => (demo_lookup k).2) keys))
    (fun _ k v => (negb (String.eqb k "zzz"), v))
    (fun _ k v found =>
       if String.eqb k "a" then (true, "1", true)
       else (negb (String.eqb k "zzz"), v, found)).

Definition fresh_options : Options :=
  mkOptions default_native_options BytewiseComparator None None None None.

Definition demo_db : DB := mkDB fresh_options demo_engine.

Definition default_read_options : ReadOptions :=
  mkReadOptions false true false None kReadAllTier.

(** The names of the five polymorphic slots of [Options]. *)
Definition slot_names : list string :=
  ["comparator"; "merge_operator"; "filter_policy"; "block_cache";
   "block_cache_compressed"].

(** The Python-side attributes behind the five slots. *)
Definition same_slots (a b : Options) : Prop :=
  py_comparator a = py_comparator b
  /\ py_merge_operator a = py_merge_operator b
  /\ py_filter_policy a = py_filter_policy b
  /\ py_block_cache a = py_block_cache b
  /\ py_block_cache_compressed a = py_block_cache_compressed b.

(** What [multi_get] stores under a key whose status is no error: the value
    when the status is ok, [None] when it is Not-Found. *)
Definition entry_of (st : Status) (v : string) : option string :=
  if ok st then Some v else None.

Definition demo_entries : list (string * string) :=
  [("a", "1"); ("b", "2"); ("c", "3")].

(** A keys iterator made by [DB.iterkeys], its cursor at address 0 and not
    yet positioned. *)
Definition demo_iterator : BaseIterator := mkBaseIterator 1 KeysIterator (Some 0).

Definition demo_heap : gmap nat ListCursor.t :=
  {[ 0 := ListCursor.mk demo_entries None ]}.

(** ** Further definitions for the properties beyond the claims *)

(** The eight error kinds the status translator can raise. *)
Definition taxonomy : list ExcClass :=
  [NotFound; Corruption; NotSupported; InvalidArgument; RocksIOError;
   MergeInProgress; Incomplete; Exception_].

(** A sequence of attribute assignments on a configuration, each one on its
    own: the caller goes on after an assignment that raised. *)
Definition assign_all (self : Options) (kwargs : list (string * PyValue))
    : Options :=
  foldl (fun s kv => (Options_setattr s kv.1 kv.2).2) self kwargs.

(** The fields of the engine's options agree with the Python objects kept
    in the five slots, and the engine's comparator pointer is not NULL. *)
Definition slots_in_sync (self : Options) : Prop :=
  n_comparator (opts self) = get_comparator (py_comparator self)
  /\ n_merge_operator (opts self) = merge_op <$> py_merge_operator self
  /\ n_filter_policy (opts self) = py_filter_policy self ≫= get_policy
  /\ n_block_cache (opts self) = py_block_cache self ≫= get_cache
  /\ n_block_cache_compressed (opts self)
     = py_block_cache_compressed self ≫= get_cache
  /\ is_Some (n_comparator (opts self)).

(** The three ways a merge callback can end: merged ([True], the new value
    stored, nothing logged); [False] with nothing stored or logged (the
    caller declined, or a fault that is no [Exception] was dropped); a
    contained [Exception] ([False], nothing stored, one line logged). *)
Definition merge_outcome_shape (format_exc : PyErr -> string) (who : string)
    (new_value : string) (log : list string) (o : MergeOutcome) : Prop :=
  (exists s, o = mkMergeOutcome (Return true) s log)
  \/ o = mkMergeOutcome (Return false) new_value log
  \/ (exists e, is_Exception e = true
                /\ o = mkMergeOutcome (Return false) new_value
                      (log ++ ["Error in " +:+ who +:+ ": " +:+ format_exc e])).

(** *** DB.get_live_files_metadata *)

(** [db.LiveFileMetaData] *)
Record LiveFileMetaData := mkLiveFileMetaData {
  lf_name : string;
  lf_level : Z;
  lf_size : Z;
  lf_smallestkey : string;
  lf_largestkey : string;
  lf_smallest_seqno : Z;
  lf_largest_seqno : Z
}.

(** The dictionary [t] built for one file. *)
Definition live_file_dict (ob : LiveFileMetaData) : gmap string PyValue :=
  let t : gmap string PyValue := ∅ in
  let t := <["name" := VStr (lf_name ob)]> t in
  let t := <["level" := VScalar (SInt (lf_level ob))]> t in
  let t := <["size" := VScalar (SInt (lf_size ob))]> t in
  let t := <["smallestkey" := VStr (lf_smallestkey ob)]> t in
  let t := <["largestkey" := VStr (lf_largestkey ob)]> t in
  let t := <["smallest_seqno" := VScalar (SInt (lf_smallest_seqno ob))]> t in
  let t := <["largest_seqno" := VScalar (SInt (lf_largest_seqno ob))]> t in
  t.

(** The loop [for ob in metadata: ...; ret.append(t)]. *)
Fixpoint live_files_loop (metadata : list LiveFileMetaData)
    (ret : list (gmap string PyValue)) : list (gmap string PyValue) :=
  match metadata with
  | [] => ret
  | ob :: rest => live_files_loop rest (ret ++ [live_file_dict ob])
  end.

(** [DB.get_live_files_metadata], on the vector the engine has filled. *)
Definition DB_get_live_files_metadata (metadata : list LiveFileMetaData)
    : list (gmap string PyValue) :=
  live_files_loop metadata [].

Definition live_file_keys : list string :=
  ["name"; "level"; "size"; "smallestkey"; "largestkey"; "smallest_seqno";
   "largest_seqno"].

(** *** Running an iterator to its end *)

(** [for x in it], gathering the [x]: [__iter__] is the iterator itself and
    the loop calls [__next__] until it raises [StopIteration].  [None] when
    [ptr] is dangling or the fuel runs out. *)
Fixpoint BaseIterator_collect {T} (E : IteratorOps T) (self : BaseIterator)
    (fuel : nat) (h : gmap nat T) : option (list PyValue * gmap nat T) :=
  match fuel with
  | 0 => None
  | S fuel' =>
      match BaseIterator_next E self h with
      | None => None
      | Some (Raise _, h') => Some ([], h')
      | Some (Return x, h') =>
          match BaseIterator_collect E self fuel' h' with
          | None => None
          | Some (xs, h'') => Some (x :: xs, h'')
          end
      end
  end.

Fixpoint ReversedIterator_collect {T} (E : IteratorOps T)
    (self : ReversedIterator) (fuel : nat) (h : gmap nat T)
    : option (list PyValue * gmap nat T) :=
  match fuel with
  | 0 => None
  | S fuel' =>
      match ReversedIterator_next E self h with
      | None => None
      | Some (Raise _, h') => Some ([], h')
      | Some (Return x, h') =>
          match ReversedIterator_collect E self fuel' h' with
          | None => None
          | Some (xs, h'') => Some (x :: xs, h'')
          end
      end
  end.

(** What an iterator of class [cls] yields on an entry of the store. *)
Definition entry_ob (cls : IteratorClass) (e : string * string) : PyValue :=
  match cls with
  | BaseIterator_cls => VNone
  | KeysIterator => VStr e.1
  | ValuesIterator => VStr e.2
  | ItemsIterator => VTuple [SStr e.1; SStr e.2]
  end.

(** *** More objects to run the definitions on *)

(** An associative merge operator that appends the operand. *)
Definition append_merge : UserObject :=
  mkUser "<AppendMerge object>" false true true false
    (Return (DScalar (SStr "append")))
    (fun _ _ => no_method "compare")
    (fun _ existing v =>
       Return (DTuple [SBool true; SStr (default "" existing +:+ v)]))
    (fun _ _ _ => Return (DTuple [SBool false; SNone]))
    (fun _ _ _ => Return (DScalar SNone))
    (fun _ => no_method "create_filter")
    (fun _ _ => no_method "key_may_match").

(** A filter policy that lets every key through. *)
Definition pass_filter : UserObject :=
  mkUser "<PassFilter object>" false false false true
    (Return (DScalar (SStr "pass")))
    (fun _ _ => no_method "compare")
    (fun _ _ _ => no_method "merge")
    (fun _ _ _ => no_method "full_merge")
    (fun _ _ _ => no_method "partial_merge")
    (fun _ => Return (DScalar (SStr "")))
    (fun _ _ => Return (DScalar (SBool true))).

(** A second iterator, over a cursor of its own at address 1. *)
Definition demo_values_iterator : BaseIterator :=
  mkBaseIterator 2 ValuesIterator (Some 1).

Definition demo_heap2 : gmap nat ListCursor.t :=
  <[ 1 := ListCursor.at_ demo_entries 1 ]> demo_heap.

Definition demo_cache : PyCache := LRUCache 1024 None None.

Definition demo_file : LiveFileMetaData :=
  mkLiveFileMetaData "/000007.sst" 0 4096 "a" "c" 1 3.

(** * Properties *)

(** ** Status translator *)

Lemma check_status_ok (st : Status) : ok st = true -> check_status st = Return tt.
Proof. intros H. unfold check_status. by rewrite H. Qed.

(** A status that is not ok never gets through the translator. *)
Lemma check_status_raises (st : Status) :
  ok st = false -> exists e, check_status st = Raise e.
Proof.
  intros H. unfold check_status. rewrite H.
  repeat case_match; eauto.
Qed.

Example check_status_not_found :
  check_status st_not_found = Raise (mkErr NotFound "NotFound: ").
Proof. reflexivity. Qed.

Example check_status_priority :
  check_status (mkStatus false false true false true true false false "x")
  = Raise (mkErr Corruption "x").
Proof. reflexivity. Qed.

(** C1. For every status, [check_status] returns normally when the status
    is ok; otherwise it raises one error, whose kind is the first of
    Not-Found, Corruption, Not-Supported, Invalid-Argument, I/O-Error,
    Merge-In-Progress, Incomplete whose predicate holds on the status, else
    the unknown error, and whose message is the text of the status (after
    the words "Unknown error: " for the unknown error). *)
Theorem check_status_classification (st : Status) :
  check_status st =
    if ok st then Return tt
    else Raise (mkErr (spec_error_kind st)
                      (match spec_error_kind st with
                       | Exception_ => "Unknown error: " +:+ ToString st
                       | _ => ToString st
                       end)).
Proof.
  destruct st as [o nf co ns ia io mp ic txt].
  unfold check_status, spec_error_kind; cbn.
  destruct o; [reflexivity|].
  destruct nf; [reflexivity|]. destruct co; [reflexivity|].
  destruct ns; [reflexivity|]. destruct ia; [reflexivity|].
  destruct io; [reflexivity|]. destruct mp; [reflexivity|].
  destruct ic; reflexivity.
Qed.

(** ** Callbacks *)

(** A fault of the caller's [compare] is answered with 0: the engine is
    told that the two keys are equal. *)
Lemma compare_callback_fault_is_zero (ctx : UserObject) (a b : string)
    (e : PyErr) :
  ob_compare ctx a b = Raise e -> compare_callback ctx a b = 0%Z.
Proof.
  intros H. unfold compare_callback, compare_callback_body. by rewrite H.
Qed.

(** So is a value of [compare] that is no integer. *)
Lemma compare_callback_not_an_int (ctx : UserObject) (a b : string)
    (r : PyData) (e : PyErr) :
  ob_compare ctx a b = Return r -> data_as_int r = Raise e ->
  compare_callback ctx a b = 0%Z.
Proof.
  intros H Hr. unfold compare_callback, compare_callback_body.
  rewrite H. cbn. by rewrite Hr.
Qed.

(** A fault of the caller's [create_filter] leaves [dst] as it was. *)
Lemma create_filter_callback_fault_keeps_dst (ctx : UserObject)
    (keys : list string) (n : nat) (dst : string) (e : PyErr) :
  ob_create_filter ctx (take n keys) = Raise e ->
  create_filter_callback ctx keys n dst = dst.
Proof.
  intros H. unfold create_filter_callback, create_filter_callback_body.
  by rewrite H.
Qed.

(** A fault of the caller's [key_may_match] is answered with false: the
    engine is told that the key is not there. *)
Lemma key_may_match_callback_fault_is_false (ctx : UserObject) (k f : string)
    (e : PyErr) :
  ob_key_may_match ctx k f = Raise e -> key_may_match_callback ctx k f = false.
Proof.
  intros H. unfold key_may_match_callback, key_may_match_callback_body.
  by rewrite H.
Qed.

Section MergeFaults.
Variable format_exc : PyErr -> string.

(** What the handler of the merge callbacks does with a fault that is an
    [Exception]: one line in the engine's log, [False] to the engine,
    [*new_value] untouched. *)
Lemma guarded_contains (who : string) (call : result PyData) (e : PyErr)
    (new_value : string) (log : list string) :
  (ret ← call; store_merged ret) = Raise e ->
  is_Exception e = true ->
  guarded format_exc who call new_value log =
    mkMergeOutcome (Return false) new_value
      (log ++ ["Error in " +:+ who +:+ ": " +:+ format_exc e]).
Proof. intros H He. unfold guarded. by rewrite H, He. Qed.

(** No outcome of [guarded] carries a fault. *)
Lemma guarded_never_raises (who : string) (call : result PyData)
    (new_value : string) (log : list string) (e : PyErr) :
  returned (guarded format_exc who call new_value log) <> Raise e.
Proof. unfold guarded. repeat case_match; cbn; discriminate. Qed.

(** A fault that is not an [Exception] passes the handler and is dropped
    at the end of the callback: false to the engine, nothing stored,
    nothing logged. *)
Lemma guarded_drops_other_faults (who : string) (call : result PyData)
    (e : PyErr) (new_value : string) (log : list string) :
  (ret ← call; store_merged ret) = Raise e ->
  is_Exception e = false ->
  guarded format_exc who call new_value log =
    mkMergeOutcome (Return false) new_value log.
Proof. intros H He. unfold guarded. by rewrite H, He. Qed.

Lemma merge_callback_contains (ctx : UserObject) (k : string)
    (existing : option string) (v new_value : string) (log : list string)
    (e : PyErr) :
  ob_merge ctx k existing v = Raise e ->
  is_Exception e = true ->
  merge_callback format_exc ctx k existing v new_value log =
    mkMergeOutcome (Return false) new_value
      (log ++ ["Error in merge_callback: " +:+ format_exc e]).
Proof.
  intros H He. unfold merge_callback.
  rewrite (guarded_contains _ _ e); [reflexivity | by rewrite H | done].
Qed.

Lemma full_merge_callback_contains (ctx : UserObject) (k : string)
    (existing : option string) (ops : list string) (new_value : string)
    (log : list string) (e : PyErr) :
  ob_full_merge ctx k existing ops = Raise e ->
  is_Exception e = true ->
  full_merge_callback format_exc ctx k existing ops new_value log =
    mkMergeOutcome (Return false) new_value
      (log ++ ["Error in full_merge_callback: " +:+ format_exc e]).
Proof.
  intros H He. unfold full_merge_callback.
  rewrite (guarded_contains _ _ e); [reflexivity | by rewrite H | done].
Qed.

Lemma partial_merge_callback_contains (ctx : UserObject) (k l r : string)
    (new_value : string) (log : list string) (e : PyErr) :
  ob_partial_merge ctx k l r = Raise e ->
  is_Exception e = true ->
  partial_merge_callback format_exc ctx k l r new_value log =
    mkMergeOutcome (Return false) new_value
      (log ++ ["Error in partial_merge_callback: " +:+ format_exc e]).
Proof.
  intros H He. unfold partial_merge_callback.
  rewrite (guarded_contains _ _ e); [reflexivity | by rewrite H | done].
Qed.

(** A fault that is not an [Exception] is not logged. *)
Example merge_callback_drops_interrupt :
  merge_callback format_exc (faulty_merge KeyboardInterrupt) "k" None "v" "" []
  = mkMergeOutcome (Return false) "" [].
Proof. reflexivity. Qed.

Example merge_callback_contains_value_error :
  merge_callback format_exc (faulty_merge ValueError) "k" None "v" "" []
  = mkMergeOutcome (Return false) ""
      ["Error in merge_callback: " +:+ format_exc (mkErr ValueError "cannot merge")].
Proof. reflexivity. Qed.
End MergeFaults.

(** C2. The comparator [faulty_comparator] implements the interface, so the
    comparator slot takes it; when the engine then calls
    [compare_callback] on it and [compare] raises, the callback answers 0,
    the answer for two equal keys, and it has no logger to write to.  In
    the same way a fault of [create_filter] leaves the filter empty and a
    fault of [key_may_match] answers false, the answer for a key that is
    not there.  A merge callback whose [merge] raises [KeyboardInterrupt]
    answers false and writes nothing to the engine's log, where the same
    callback logs a [ValueError] (see [merge_callback_contains]). *)
Theorem callback_faults_answered_silently :
  (comparator_set fresh_options (VUser faulty_comparator)).1 = Return tt
  /\ compare_callback_body faulty_comparator "a" "b"
     = Raise (mkErr ValueError "cannot compare")
  /\ compare_callback faulty_comparator "a" "b" = 0%Z
  /\ create_filter_callback faulty_filter ["a"; "b"] 2 "" = ""
  /\ key_may_match_callback faulty_filter "a" "" = false
  /\ (forall format_exc log,
        merge_callback format_exc (faulty_merge KeyboardInterrupt) "k" None
          "v" "" log
        = mkMergeOutcome (Return false) "" log).
Proof. repeat split; reflexivity. Qed.

(** ** Options *)

(** A [TypeError] raised through a format is a [TypeError] whatever the
    value, a tuple included. *)
Lemma raise_fmt_TypeError {A} (before after : string) (value : PyValue) :
  exists msg, raise_fmt (A := A) TypeError before after value
              = Raise (mkErr TypeError msg).
Proof.
  unfold raise_fmt, percent_s.
  destruct value as [v|items| | | | |]; cbn; eauto.
  destruct items as [|x [|y rest]]; cbn; eauto.
Qed.

(** C10. A configuration made with no keyword argument reads back the
    built-in bytewise comparator in its comparator slot, which is not
    [None], and [None] in the merge_operator, filter_policy, block_cache
    and block_cache_compressed slots. *)
Theorem fresh_Options_slots :
  exists self, Options_init [] = (Return tt, self)
    /\ comparator_get self = VComparator BytewiseComparator
    /\ comparator_get self <> VNone
    /\ n_comparator (opts self) = Some BytewiseComparatorImpl
    /\ merge_operator_get self = VNone
    /\ filter_policy_get self = VNone
    /\ block_cache_get self = VNone
    /\ block_cache_compressed_get self = VNone.
Proof. exists fresh_options. repeat split; done. Qed.

(** Assigning an attribute that is none of the five slots leaves the five
    slots as they are, whether the assignment succeeds or raises. *)
Lemma Options_setattr_keeps_slots (self self' : Options) (key : string)
    (value : PyValue) (r : result unit) :
  key ∉ slot_names ->
  Options_setattr self key value = (r, self') ->
  same_slots self' self.
Proof.
  intros Hk. unfold Options_setattr.
  destruct (String.eqb_spec key "compression") as [_|_].
  { unfold compression_set, same_slots.
    repeat case_match; intros [= <- <-]; cbn; done. }
  repeat match goal with
         | |- context [String.eqb key ?n] =>
             destruct (String.eqb_spec key n) as [->|_];
             [exfalso; apply Hk; unfold slot_names;
              rewrite !elem_of_cons; tauto |]
         end.
  unfold scalar_set, same_slots.
  case_match; intros [= <- <-]; cbn; done.
Qed.

Lemma Options_init_loop_keeps_slots (kwargs : list (string * PyValue))
    (start self : Options) (r : result unit) :
  Forall (fun kv => kv.1 ∉ slot_names) kwargs ->
  Options_init_loop start kwargs = (r, self) ->
  same_slots self start.
Proof.
  intros Hall. revert start.
  induction Hall as [|[key value] rest Hk _ IH]; intros start; cbn.
  - intros [= <- <-]. by unfold same_slots.
  - destruct (Options_setattr start key value) as [[[]|e] mid] eqn:Hset.
    + intros Hrest. specialize (IH _ Hrest).
      pose proof (Options_setattr_keeps_slots _ _ _ _ _ Hk Hset) as Hmid.
      unfold same_slots in *. intuition congruence.
    + intros [= <- <-]. by eapply Options_setattr_keeps_slots.
Qed.

(** A configuration built from keyword arguments that name none of the five
    slots still reads back the bytewise comparator and four times [None]. *)
Lemma Options_init_keeps_slots (kwargs : list (string * PyValue))
    (self : Options) :
  Forall (fun kv => kv.1 ∉ slot_names) kwargs ->
  Options_init kwargs = (Return tt, self) ->
  comparator_get self = VComparator BytewiseComparator
  /\ merge_operator_get self = VNone
  /\ filter_policy_get self = VNone
  /\ block_cache_get self = VNone
  /\ block_cache_compressed_get self = VNone.
Proof.
  intros Hall Hinit.
  destruct (Options_init_loop_keeps_slots _ _ _ _ Hall Hinit)
    as (Hc & Hm & Hf & Hb & Hbc).
  unfold comparator_get, merge_operator_get, filter_policy_get,
    block_cache_get, block_cache_compressed_get.
  by rewrite Hc, Hm, Hf, Hb, Hbc.
Qed.

(** Keyword arguments for the scalar knobs leave the five slots alone. *)
Example Options_init_scalar_kwargs :
  exists self,
    Options_init [("create_if_missing", VBool true);
                  ("max_open_files", VScalar (SInt 300))] = (Return tt, self)
    /\ comparator_get self = VComparator BytewiseComparator
    /\ merge_operator_get self = VNone
    /\ n_scalars (opts self) !! "max_open_files" = Some (VScalar (SInt 300)).
Proof. eexists. repeat split. Qed.

Lemma compression_names_inv (s : string) :
  s ∈ compression_names ->
  s = CompressionType.no_compression \/ s = CompressionType.snappy_compression
  \/ s = CompressionType.zlib_compression \/ s = CompressionType.bzip2_compression.
Proof. unfold compression_names. rewrite !elem_of_cons, elem_of_nil. tauto. Qed.

(** C6, as the code has it. For every value assigned to the compression
    setting: one of the four names no_compression, snappy_compression,
    zlib_compression, bzip2_compression is stored and read back as the same
    name; any other value raises [TypeError] and leaves the configuration
    as it was. *)
Theorem compression_set_closed_set (self : Options) (value : PyValue) :
  if is_compression_name value then
    exists self', compression_set self value = (Return tt, self')
      /\ compression_get self' = Return value
  else
    exists msg, compression_set self value = (Raise (mkErr TypeError msg), self).
Proof.
  unfold compression_set.
  destruct (is_compression_name value) eqn:Hn.
  - destruct value as [[| | |s]|?| | | | |]; try discriminate.
    cbn in Hn. apply bool_decide_eq_true_1, compression_names_inv in Hn.
    destruct Hn as [-> | [-> | [-> | ->]]]; cbn; eauto.
  - assert (forall s, s ∈ compression_names -> eq_str value s = false) as Hne.
    { intros s Hs. destruct value as [[| | |t]|?| | | | |]; try done.
      cbn in *. apply bool_decide_eq_false_1 in Hn.
      destruct (String.eqb_spec t s); [subst; contradiction | done]. }
    rewrite !Hne by (unfold compression_names; set_solver).
    destruct (raise_fmt_TypeError (A := unit) "Unknown compression: " "" value)
      as [msg ->]. eauto.
Qed.

(** C6, counterexample. Assigning "lz4", which is none of the four names,
    raises [TypeError]; the specification has the Invalid-Argument error
    there. *)
Lemma compression_set_lz4_is_TypeError :
  is_compression_name (VStr "lz4") = false
  /\ compression_set fresh_options (VStr "lz4")
     = (Raise (mkErr TypeError "Unknown compression: lz4"), fresh_options)
  /\ ~ (exists msg, (compression_set fresh_options (VStr "lz4")).1
                    = Raise (mkErr InvalidArgument msg)).
Proof.
  split; [reflexivity|]. split; [reflexivity|].
  intros [msg H]. cbn in H. discriminate.
Qed.

Example compression_roundtrip_zlib :
  compression_get (compression_set fresh_options (VStr "zlib_compression")).2
  = Return (VStr "zlib_compression").
Proof. reflexivity. Qed.

(** A set of the comparator slot that raises leaves the object as it was,
    whatever the reason of the failure. *)
Lemma comparator_set_failure_keeps (self self' : Options) (value : PyValue)
    (e : PyErr) :
  comparator_set self value = (Raise e, self') -> self' = self.
Proof.
  unfold comparator_set. repeat case_match; intros; simplify_eq; done.
Qed.

(** C5, as the code has it. For every object the slot turns down as
    lacking the comparator capability, the set raises at once -- a
    [TypeError] for an object that does not implement the comparator
    interface, a plain [Exception] for a bare built-in comparator object --
    and the configuration, its comparator slot included, is left as it
    was. *)
Theorem comparator_set_rejects (self : Options) (value : PyValue) :
  lacks_comparator_capability value = true ->
  exists e, comparator_set self value = (Raise e, self)
    /\ exc_class e = match value with
                     | VComparator _ => Exception_
                     | _ => TypeError
                     end.
Proof.
  unfold lacks_comparator_capability, comparator_set, PyGenericComparator_cinit.
  intros H.
  destruct value as [v|items|u|c|p|c|s]; cbn in H.
  4: { destruct c; cbn in *; try discriminate. eauto. }
  3: apply negb_true_iff in H; rewrite H.
  all: match goal with
       | |- context [raise_fmt TypeError ?b ?a ?x] =>
           destruct (raise_fmt_TypeError (A := PyComparator) b a x) as [msg Hm];
           rewrite Hm; eauto
       end.
Qed.

Lemma comparator_set_rejects_witness :
  exists e, comparator_set fresh_options (VScalar (SInt 7))
            = (Raise e, fresh_options)
    /\ exc_class e = TypeError.
Proof.
  apply (comparator_set_rejects fresh_options (VScalar (SInt 7))). reflexivity.
Defined.

(** C5, counterexample. A plain string has neither [name] nor [compare];
    setting it as comparator raises [TypeError], where the specification has
    an Invalid-Argument error. *)
Lemma comparator_set_string_is_TypeError :
  lacks_comparator_capability (VStr "cmp") = true
  /\ comparator_set fresh_options (VStr "cmp")
     = (Raise (mkErr TypeError "Cannot set comparator: cmp"), fresh_options)
  /\ ~ (exists msg, (comparator_set fresh_options (VStr "cmp")).1
                    = Raise (mkErr InvalidArgument msg)).
Proof.
  split; [reflexivity|]. split; [reflexivity|].
  intros [msg H]. cbn in H. discriminate.
Qed.

(** A bare [PyComparator] is turned down with a plain [Exception]. *)
Example comparator_set_base_object :
  comparator_set fresh_options (VComparator PyComparator_base)
  = (Raise (mkErr Exception_
       "Cannot set <rocksdb._rocksdb.PyComparator object> as comparator"),
     fresh_options).
Proof. reflexivity. Qed.

(** A built-in comparator is stored as it is; a caller's comparator goes
    behind a wrapper and reads back as the caller's object. *)
Example comparator_set_accepts :
  comparator_get (comparator_set fresh_options (VComparator BytewiseComparator)).2
  = VComparator BytewiseComparator
  /\ comparator_get (comparator_set fresh_options (VUser faulty_comparator)).2
     = VUser faulty_comparator
  /\ n_comparator (opts (comparator_set fresh_options (VUser faulty_comparator)).2)
     = Some (ComparatorWrapper "faulty" faulty_comparator).
Proof. repeat split. Qed.

(** ** Read options *)

Lemma eq_str_true (value : PyValue) (s : string) :
  eq_str value s = true <-> value = VStr s.
Proof.
  unfold VStr.
  destruct value as [[| | |t]| | | | | |]; cbn; try (split; [done | intros [=]]).
  destruct (String.eqb_spec t s) as [->|Hne].
  - split; intros _; reflexivity.
  - split; [discriminate | intros [= ->]; contradiction].
Qed.

Lemma eq_str_false (value : PyValue) (s : string) :
  eq_str value s = false <-> value <> VStr s.
Proof. rewrite <- eq_str_true. destruct (eq_str value s); split; congruence. Qed.

(** With any value but "all" and "cache" as read_tier, the body of
    [build_read_opts] raises. *)
Lemma build_read_opts_body_other_tier_raises (py_opts : PyReadOpts) :
  py_read_tier py_opts <> VStr "all" ->
  py_read_tier py_opts <> VStr "cache" ->
  exists e, build_read_opts_body py_opts = Raise e
    /\ (exc_class e = ValueError \/ exc_class e = TypeError).
Proof.
  intros Ha Hc. apply eq_str_false in Ha, Hc.
  unfold build_read_opts_body. rewrite Ha, Hc.
  destruct (py_snapshot py_opts) as [[| | |]| | | | | |]; cbn; eauto.
Qed.

(** With a usable snapshot entry and any value but "all" and "cache" as
    read_tier, the body of [build_read_opts] raises the [ValueError]. *)
Lemma build_read_opts_body_invalid_tier (py_opts : PyReadOpts) :
  usable_snapshot (py_snapshot py_opts) = true ->
  py_read_tier py_opts <> VStr "all" ->
  py_read_tier py_opts <> VStr "cache" ->
  build_read_opts_body py_opts = Raise (mkErr ValueError "Invalid read_tier").
Proof.
  intros Hs Ha Hc. apply eq_str_false in Ha, Hc.
  unfold build_read_opts_body. rewrite Ha, Hc.
  destruct (py_snapshot py_opts) as [[| | |]| | | | | |]; try discriminate;
    reflexivity.
Qed.

(** The caller of [build_read_opts] never sees that fault: it gets the
    default read options, whatever the other entries of the dictionary. *)
Lemma build_read_opts_other_tier_default (py_opts : PyReadOpts) :
  py_read_tier py_opts <> VStr "all" ->
  py_read_tier py_opts <> VStr "cache" ->
  build_read_opts py_opts = ReadOptions_new.
Proof.
  intros Ha Hc.
  destruct (build_read_opts_body_other_tier_raises py_opts Ha Hc)
    as (e & He & _).
  unfold build_read_opts. by rewrite He.
Qed.

(** With a usable snapshot entry, "all" and "cache" give the engine's two
    tiers and the three flags are the truth values of their entries. *)
Lemma build_read_opts_accepts (py_opts : PyReadOpts) (tier : ReadTier) :
  usable_snapshot (py_snapshot py_opts) = true ->
  py_read_tier py_opts
  = VStr (match tier with kReadAllTier => "all" | kBlockCacheTier => "cache" end) ->
  exists sn,
    build_read_opts py_opts
    = mkReadOptions (py_truth (py_verify_checksums py_opts))
                    (py_truth (py_fill_cache py_opts))
                    (py_truth (py_prefix_seek py_opts)) sn tier.
Proof.
  intros Hs Ht. unfold build_read_opts, build_read_opts_body. rewrite Ht.
  destruct (py_snapshot py_opts) as [[| | |]| | | | | |]; try discriminate;
    destruct tier; cbn; eauto.
Qed.

(** C7. The read_tier "disk" is none of "all" and "cache": the body of
    [build_read_opts] raises the [ValueError] for it, but the function
    returns default read options to its caller, dropping the other entries
    of the dictionary with the fault, and [DB.get] and [DB.key_may_exist]
    go on to ask the engine and return its answer. *)
Theorem build_read_opts_drops_invalid_read_tier :
  build_read_opts_body
    (mkPyReadOpts (VBool true) (VBool false) (VBool false) VNone (VStr "disk"))
  = Raise (mkErr ValueError "Invalid read_tier")
  /\ build_read_opts
       (mkPyReadOpts (VBool true) (VBool false) (VBool false) VNone
                     (VStr "disk"))
     = mkReadOptions false true false None kReadAllTier
  /\ DB_get demo_db "a" [] {[ "read_tier" := VStr "disk" ]}
     = Return (Some "1")
  /\ DB_key_may_exist demo_db "a" (VBool false) []
       {[ "read_tier" := VStr "disk" ]}
     = Return (true, None).
Proof. repeat split; vm_compute; reflexivity. Qed.

(** A snapshot entry that is no snapshot makes the body raise before
    read_tier is looked at; the caller gets the default read options. *)
Example build_read_opts_bad_snapshot :
  build_read_opts_body
    (mkPyReadOpts (VBool false) (VBool true) (VBool false) (VStr "s") (VStr "all"))
  = Raise (mkErr TypeError "Cannot convert to rocksdb._rocksdb.Snapshot")
  /\ build_read_opts
       (mkPyReadOpts (VBool false) (VBool true) (VBool false) (VStr "s")
                     (VStr "cache"))
     = ReadOptions_new.
Proof. split; reflexivity. Qed.

Example parse_read_opts_defaults :
  parse_read_opts [] ∅
  = Return (mkPyReadOpts (VBool false) (VBool true) (VBool false) VNone
                         (VStr "all")).
Proof. reflexivity. Qed.

Example parse_read_opts_keyword :
  read_opts_of [VBool true] {[ "read_tier" := VStr "cache" ]}
  = Return (mkReadOptions true true false None kBlockCacheTier).
Proof. vm_compute. reflexivity. Qed.

Example parse_read_opts_twice :
  exists e, parse_read_opts [VBool true] {[ "verify_checksums" := VBool true ]}
            = Raise e /\ exc_class e = TypeError.
Proof. eexists. split; vm_compute; reflexivity. Qed.

Example parse_read_opts_unknown :
  exists e, parse_read_opts [] {[ "tier" := VStr "all" ]} = Raise e
            /\ exc_class e = TypeError.
Proof. eexists. split; vm_compute; reflexivity. Qed.

(** ** DB.get and DB.key_may_exist *)

(** C3. Once the read options are built and the engine has answered
    [Get] with a status and a value: [DB.get] returns the value when the
    status is ok, returns [None] without raising when the status is
    Not-Found, and for any other status raises what [check_status] raises
    for it. *)
Theorem DB_get_outcomes (self : DB) (key : string) (args : list PyValue)
    (kwargs : gmap string PyValue) (ro : ReadOptions) (st : Status)
    (res : string) :
  read_opts_of args kwargs = Return ro ->
  Get (db self) ro key = (st, res) ->
  (ok st = true -> DB_get self key args kwargs = Return (Some res))
  /\ (ok st = false -> IsNotFound st = true ->
      DB_get self key args kwargs = Return None)
  /\ (ok st = false -> IsNotFound st = false ->
      exists e, check_status st = Raise e
                /\ DB_get self key args kwargs = Raise e).
Proof.
  intros Hro Hget. unfold DB_get. rewrite Hro. cbn. rewrite Hget.
  split; [|split].
  - by intros ->.
  - by intros -> ->.
  - intros Hok Hnf. rewrite Hok, Hnf.
    destruct (check_status_raises st Hok) as [e He].
    exists e. by rewrite He.
Qed.

Lemma DB_get_outcomes_witness :
  (ok st_corruption = true ->
     DB_get demo_db "bad" [] ∅ = Return (Some ""))
  /\ (ok st_corruption = false -> IsNotFound st_corruption = true ->
      DB_get demo_db "bad" [] ∅ = Return None)
  /\ (ok st_corruption = false -> IsNotFound st_corruption = false ->
      exists e, check_status st_corruption = Raise e
                /\ DB_get demo_db "bad" [] ∅ = Raise e).
Proof.
  apply (DB_get_outcomes demo_db "bad" [] ∅ default_read_options
                         st_corruption ""); reflexivity.
Defined.

Example DB_get_present : DB_get demo_db "a" [] ∅ = Return (Some "1").
Proof. reflexivity. Qed.

Example DB_get_absent : DB_get demo_db "b" [] ∅ = Return None.
Proof. reflexivity. Qed.

Example DB_get_corrupt :
  DB_get demo_db "bad" [] ∅ = Raise (mkErr Corruption "Corruption: bad block").
Proof. reflexivity. Qed.

(** A keyword that [__parse_read_opts] does not know fails the call before
    the engine is asked. *)
Example DB_get_unknown_keyword :
  exists e, DB_get demo_db "a" [] {[ "tier" := VStr "all" ]} = Raise e
            /\ exc_class e = TypeError.
Proof. eexists. split; vm_compute; reflexivity. Qed.

(** C8. Once the read options are built, [DB.key_may_exist] returns a pair
    (maybe_exists, value): value is [None] whenever maybe_exists is false;
    without fetch, maybe_exists is the engine's answer and value is
    [None]; with fetch, maybe_exists is the engine's answer and value is
    the engine's value exactly when the engine answered true and reported
    the value found, [None] otherwise. *)
Theorem DB_key_may_exist_outcomes (self : DB) (key : string) (fetch : PyValue)
    (args : list PyValue) (kwargs : gmap string PyValue) (ro : ReadOptions) :
  read_opts_of args kwargs = Return ro ->
  exists (maybe_exists : bool) (value : option string),
    DB_key_may_exist self key fetch args kwargs = Return (maybe_exists, value)
    /\ (maybe_exists = false -> value = None)
    /\ (py_truth fetch = false ->
        maybe_exists = (KeyMayExist (db self) ro key "").1 /\ value = None)
    /\ (py_truth fetch = true ->
        let r := KeyMayExist_found (db self) ro key "" false in
        maybe_exists = r.1.1
        /\ value = if r.1.1 && r.2 then Some r.1.2 else None).
Proof.
  intros Hro. unfold DB_key_may_exist. rewrite Hro. cbn.
  destruct (py_truth fetch).
  - destruct (KeyMayExist_found (db self) ro key "" false) as [[e v] found].
    destruct e, found; cbn; eexists _, _; (split; [reflexivity|]);
      repeat split; congruence.
  - destruct (KeyMayExist (db self) ro key "") as [e v].
    cbn; eexists _, _; (split; [reflexivity|]); repeat split; congruence.
Qed.

Lemma DB_key_may_exist_outcomes_witness :
  exists (maybe_exists : bool) (value : option string),
    DB_key_may_exist demo_db "a" (VBool true) [] ∅ = Return (maybe_exists, value)
    /\ (maybe_exists = false -> value = None)
    /\ (py_truth (VBool true) = false ->
        maybe_exists = (KeyMayExist (db demo_db) default_read_options "a" "").1
        /\ value = None)
    /\ (py_truth (VBool true) = true ->
        let r := KeyMayExist_found (db demo_db) default_read_options "a" "" false in
        maybe_exists = r.1.1
        /\ value = if r.1.1 && r.2 then Some r.1.2 else None).
Proof.
  apply (DB_key_may_exist_outcomes demo_db "a" (VBool true) [] ∅
                                   default_read_options).
  reflexivity.
Defined.

Example key_may_exist_fetched :
  DB_key_may_exist demo_db "a" (VBool true) [] ∅ = Return (true, Some "1").
Proof. reflexivity. Qed.

Example key_may_exist_not_fetched :
  DB_key_may_exist demo_db "a" (VBool false) [] ∅ = Return (true, None).
Proof. reflexivity. Qed.

Example key_may_exist_maybe_without_value :
  DB_key_may_exist demo_db "b" (VBool true) [] ∅ = Return (true, None).
Proof. reflexivity. Qed.

Example key_may_exist_negative :
  DB_key_may_exist demo_db "zzz" (VBool true) [] ∅ = Return (false, None).
Proof. reflexivity. Qed.

(** ** Iterators *)

Section IteratorFacts.
Context {T : Type} (E : IteratorOps T).

(** After a move through [self.ptr], the cursor that [self] points to is the
    moved one. *)
Lemma on_ptr_deref (self : BaseIterator) (m : T -> T) (h : gmap nat T) :
  (on_ptr self m h ≫= deref self) = (m <$> deref self h).
Proof.
  unfold on_ptr, deref. destruct (ptr self) as [p|]; cbn; [|done].
  destruct (h !! p) as [c|] eqn:Hc; cbn; [|by rewrite ?Hc].
  by rewrite lookup_insert_eq.
Qed.

(** Cursors at other addresses are not touched. *)
Lemma on_ptr_other (self : BaseIterator) (m : T -> T) (h h' : gmap nat T)
    (q : nat) :
  on_ptr self m h = Some h' -> ptr self <> Some q -> h' !! q = h !! q.
Proof.
  unfold on_ptr. destruct (ptr self) as [p|]; cbn; [|done].
  destruct (h !! p) as [c|]; cbn; [|done].
  intros [= <-] Hne. apply lookup_insert_ne. congruence.
Qed.
End IteratorFacts.

(** C9. For every cursor [self] and its reverse wrapper [r]: the wrapper's
    seeks are the cursor's seeks on the one engine cursor both point to, so
    that after a seek through the wrapper the cursor itself is at the sought
    position; the wrapper's [__next__] is the cursor's [__next__] with
    [Prev] in the place of [Next], and the other way round; and reversing
    the wrapper gives back [self]. *)
Theorem reversed_iterator_shares_cursor {T : Type} (E : IteratorOps T)
    (self : BaseIterator) (h : gmap nat T) (k : string) :
  let r := BaseIterator_reversed self in
  ReversedIterator_reversed r = self
  /\ deref (it r) h = deref self h
  /\ ReversedIterator_seek_to_first E r h = BaseIterator_seek_to_first E self h
  /\ ReversedIterator_seek_to_last E r h = BaseIterator_seek_to_last E self h
  /\ ReversedIterator_seek E r k h = BaseIterator_seek E self k h
  /\ (ReversedIterator_seek_to_first E r h ≫= deref self)
     = (SeekToFirst E <$> deref self h)
  /\ (ReversedIterator_seek_to_last E r h ≫= deref self)
     = (SeekToLast E <$> deref self h)
  /\ (ReversedIterator_seek E r k h ≫= deref self) = (Seek E k <$> deref self h)
  /\ (BaseIterator_seek E self k h ≫= deref (it r)) = (Seek E k <$> deref self h)
  /\ ReversedIterator_next E r h = BaseIterator_next (swap_next_prev E) self h
  /\ BaseIterator_next E self h = ReversedIterator_next (swap_next_prev E) r h.
Proof.
  cbn. repeat split; try reflexivity; apply on_ptr_deref.
Qed.

(** Walking backwards through the wrapper and then forwards through the
    cursor itself: the cursor resumes where the wrapper left the position. *)
Example reversed_then_forward :
  (h1 ← ReversedIterator_seek_to_last ListCursor.ops
          (BaseIterator_reversed demo_iterator) demo_heap;
   '(x, h2) ← ReversedIterator_next ListCursor.ops
                (BaseIterator_reversed demo_iterator) h1;
   '(y, h3) ← ReversedIterator_next ListCursor.ops
                (BaseIterator_reversed demo_iterator) h2;
   '(z, h4) ← BaseIterator_next ListCursor.ops demo_iterator h3;
   Some [x; y; z])
  = Some [Return (VStr "c"); Return (VStr "b"); Return (VStr "a")].
Proof. vm_compute. reflexivity. Qed.

(** Forward iteration yields the keys in order and then stops. *)
Example forward_run :
  (h1 ← BaseIterator_seek ListCursor.ops demo_iterator "b" demo_heap;
   '(x, h2) ← BaseIterator_next ListCursor.ops demo_iterator h1;
   '(y, h3) ← BaseIterator_next ListCursor.ops demo_iterator h2;
   '(z, h4) ← BaseIterator_next ListCursor.ops demo_iterator h3;
   Some [x; y; z])
  = Some [Return (VStr "b"); Return (VStr "c"); Raise (mkErr StopIteration "")].
Proof. vm_compute. reflexivity. Qed.

(** ** DB.multi_get *)

Section MultiGetLoop.
Variables (keys : list string) (res : list Status) (values : list string).
Hypothesis Hres : length res = length keys.
Hypothesis Hvalues : length values = length keys.

(** One turn of the loop on a status that is no error. *)
Lemma multi_get_loop_step (index : nat) (rest : list nat)
    (d0 : gmap string (option string)) (k : string) (st : Status) (v : string) :
  keys !! index = Some k -> res !! index = Some st -> values !! index = Some v ->
  is_error st = false ->
  multi_get_loop keys res values (index :: rest) d0
  = multi_get_loop keys res values rest (<[k := entry_of st v]> d0).
Proof.
  intros Hk Hst Hv Hne. cbn. rewrite Hk, Hst, Hv.
  unfold is_error in Hne. unfold entry_of.
  destruct (ok st); [done|]. destruct (IsNotFound st); [done|discriminate].
Qed.

Lemma lookups_at (i : nat) :
  i < length keys ->
  exists k st v, keys !! i = Some k /\ res !! i = Some st /\ values !! i = Some v.
Proof.
  intros Hi.
  destruct (lookup_lt_is_Some_2 keys i Hi) as [k Hk].
  destruct (lookup_lt_is_Some_2 res i ltac:(lia)) as [st Hst].
  destruct (lookup_lt_is_Some_2 values i ltac:(lia)) as [v Hv].
  eauto 10.
Qed.

(** The loop over the indices from [i] on, when none of them holds an
    error: it ends with a dictionary that has gained the keys from [i] on,
    each bound by its last occurrence. *)
Lemma multi_get_loop_no_error (n i : nat) (d0 : gmap string (option string)) :
  i + n = length keys ->
  (forall j st, i <= j -> res !! j = Some st -> is_error st = false) ->
  exists d,
    multi_get_loop keys res values (seq i n) d0 = Some (Return d)
    /\ dom d = dom d0 ∪ list_to_set (drop i keys)
    /\ (forall k, k ∉ drop i keys -> d !! k = d0 !! k)
    /\ (forall j k, i <= j -> keys !! j = Some k ->
          (forall j', j < j' -> keys !! j' <> Some k) ->
          exists st v, res !! j = Some st /\ values !! j = Some v
                       /\ d !! k = Some (entry_of st v)).
Proof.
  revert i d0. induction n as [|n IH]; intros i d0 Hlen Hok.
  - exists d0. cbn. rewrite drop_ge by lia.
    split; [done|]. split; [cbn; by rewrite (right_id_L ∅ (∪))|]. split; [done|].
    intros j k Hj Hk _. apply lookup_lt_Some in Hk. lia.
  - destruct (lookups_at i ltac:(lia)) as (ki & sti & vi & Hki & Hsti & Hvi).
    cbn [seq].
    rewrite (multi_get_loop_step i _ d0 ki sti vi Hki Hsti Hvi)
      by (eapply Hok; [|done]; lia).
    destruct (IH (S i) (<[ki := entry_of sti vi]> d0) ltac:(lia)) as
      (d & Hd & Hdom & Hout & Hin).
    { intros j st Hj. apply Hok. lia. }
    assert (drop i keys = ki :: drop (S i) keys) as Hdrop
      by (by apply drop_S).
    exists d. split; [done|]. split; [|split].
    + rewrite Hdom, Hdrop, dom_insert_L, list_to_set_cons.
      by rewrite (comm_L (∪) {[ki]} (dom d0)), <- (assoc_L (∪)).
    + intros k Hk. rewrite Hdrop in Hk. apply not_elem_of_cons in Hk as [Hne Hk].
      rewrite (Hout k Hk). by apply lookup_insert_ne.
    + intros j k Hj Hk Hlast.
      destruct (decide (j = i)) as [->|Hji].
      * assert (k = ki) as -> by congruence.
        exists sti, vi. split; [done|]. split; [done|].
        rewrite Hout; [by apply lookup_insert_eq|].
        intros Hel. apply list_elem_of_lookup in Hel as [m Hm].
        rewrite lookup_drop in Hm. by apply (Hlast (S i + m)); [lia|].
      * apply Hin; [lia|done|done].
Qed.

(** The loop over the indices from [i] on, when [e_idx] is the first of
    them that holds an error: it raises what [check_status] raises for
    that status. *)
Lemma multi_get_loop_first_error (n i e_idx : nat)
    (d0 : gmap string (option string)) (st : Status) :
  i + n = length keys ->
  i <= e_idx ->
  res !! e_idx = Some st ->
  is_error st = true ->
  (forall j st', i <= j -> j < e_idx -> res !! j = Some st' ->
                 is_error st' = false) ->
  exists e, check_status st = Raise e
            /\ multi_get_loop keys res values (seq i n) d0 = Some (Raise e).
Proof.
  revert i d0. induction n as [|n IH]; intros i d0 Hlen Hle Hst Herr Hbefore.
  - apply lookup_lt_Some in Hst. lia.
  - destruct (lookups_at i ltac:(lia)) as (ki & sti & vi & Hki & Hsti & Hvi).
    cbn [seq].
    destruct (decide (i = e_idx)) as [->|Hne].
    + assert (sti = st) as -> by congruence.
      unfold is_error in Herr.
      apply andb_true_iff in Herr as [Hok Hnf].
      apply negb_true_iff in Hok, Hnf.
      destruct (check_status_raises st Hok) as [e He].
      exists e. split; [done|]. cbn. by rewrite Hki, Hsti, Hvi, Hok, Hnf, He.
    + rewrite (multi_get_loop_step i _ d0 ki sti vi Hki Hsti Hvi)
        by (eapply (Hbefore i); [lia|lia|done]).
      apply IH; [lia|lia|done|done|].
      intros j st' Hj Hj'. apply Hbefore; lia.
Qed.
End MultiGetLoop.

(** C4. Once the read options are built and the engine has answered
    [MultiGet] with one status and one value per key: [DB.multi_get]
    raises what [check_status] raises for the first status, in key order,
    that is neither ok nor Not-Found; when there is none, it returns a
    dictionary whose keys are exactly the requested keys, each bound to the
    value (status ok) or to [None] (status Not-Found) of its last
    occurrence in the list, so with one entry per key when no key is
    repeated. *)
Theorem DB_multi_get_outcomes (self : DB) (keys : list string)
    (args : list PyValue) (kwargs : gmap string PyValue) (ro : ReadOptions)
    (res : list Status) (values : list string) :
  read_opts_of args kwargs = Return ro ->
  MultiGet (db self) ro keys (replicate (length keys) "") = (res, values) ->
  length res = length keys ->
  length values = length keys ->
  (forall i st,
     res !! i = Some st -> is_error st = true ->
     (forall j st', j < i -> res !! j = Some st' -> is_error st' = false) ->
     exists e, check_status st = Raise e
               /\ DB_multi_get self keys args kwargs = Some (Raise e))
  /\ ((forall i st, res !! i = Some st -> is_error st = false) ->
      exists d,
        DB_multi_get self keys args kwargs = Some (Return d)
        /\ dom d = list_to_set keys
        /\ (forall i k, keys !! i = Some k ->
              (forall j, i < j -> keys !! j <> Some k) ->
              exists st v, res !! i = Some st /\ values !! i = Some v
                           /\ d !! k = Some (entry_of st v))
        /\ (NoDup keys -> size d = length keys)).
Proof.
  intros Hro Hmg Hres Hvalues.
  unfold DB_multi_get. rewrite Hro, Hmg. split.
  - intros i st Hst Herr Hbefore.
    apply (multi_get_loop_first_error keys res values Hres Hvalues
             (length keys) 0 i ∅ st); [done|lia|done|done|].
    intros j st' _. apply Hbefore.
  - intros Hok.
    destruct (multi_get_loop_no_error keys res values Hres Hvalues
                (length keys) 0 ∅ eq_refl) as (d & Hd & Hdom & _ & Hin).
    { intros j st _. apply Hok. }
    rewrite drop_0, dom_empty_L, (left_id_L ∅ (∪)) in Hdom.
    exists d. split; [done|]. split; [done|]. split.
    + intros i k. apply Hin. lia.
    + intros Hnd. rewrite <- size_dom, Hdom. by apply size_list_to_set.
Qed.

Lemma DB_multi_get_outcomes_witness :
  exists d,
    DB_multi_get demo_db ["a"; "b"; "c"] [] ∅ = Some (Return d)
    /\ dom d = list_to_set ["a"; "b"; "c"]
    /\ (forall i k, ["a"; "b"; "c"] !! i = Some k ->
          (forall j, i < j -> ["a"; "b"; "c"] !! j <> Some k) ->
          exists st v, [st_ok; st_not_found; st_not_found] !! i = Some st
                       /\ ["1"; ""; ""] !! i = Some v
                       /\ d !! k = Some (entry_of st v))
    /\ (NoDup ["a"; "b"; "c"] -> size d = length ["a"; "b"; "c"]).
Proof.
  apply (DB_multi_get_outcomes demo_db ["a"; "b"; "c"] [] ∅
           default_read_options [st_ok; st_not_found; st_not_found]
           ["1"; ""; ""]); try reflexivity.
  intros [|[|[|i]]] st [= <-]; reflexivity.
Defined.

(** The mixed result of the specification: one key present, two absent. *)
Example multi_get_mixed :
  exists d, DB_multi_get demo_db ["a"; "b"; "c"] [] ∅ = Some (Return d)
    /\ d !! "a" = Some (Some "1") /\ d !! "b" = Some None
    /\ d !! "c" = Some None /\ d !! "d" = None.
Proof. eexists. split; [reflexivity|]. repeat split; vm_compute; reflexivity. Qed.

(** The first error wins, and the entries gathered before it are lost. *)
Example multi_get_first_error :
  DB_multi_get demo_db ["a"; "bad"; "b"] [] ∅
  = Some (Raise (mkErr Corruption "Corruption: bad block")).
Proof. reflexivity. Qed.

(** A repeated key has one entry. *)
Example multi_get_repeated_key :
  exists d, DB_multi_get demo_db ["a"; "b"; "a"] [] ∅ = Some (Return d)
    /\ size d = 2.
Proof. eexists. split; [reflexivity|]. vm_compute. reflexivity. Qed.

(** * Further properties *)

(** ** Status translator *)

(** X1. [check_status] returns normally only for an ok status; what it
    raises is always one of the eight kinds of the taxonomy, never a
    builtin error such as [TypeError], and its message ends with the text
    of the status. *)
Theorem check_status_never_swallows (st : Status) :
  match check_status st with
  | Return _ => ok st = true
  | Raise e =>
      ok st = false /\ exc_class e ∈ taxonomy
      /\ exists prefix, exc_msg e = prefix +:+ ToString st
  end.
Proof.
  unfold check_status, taxonomy.
  destruct (ok st); [done|].
  destruct (IsNotFound st), (IsCorruption st), (IsNotSupported st),
    (IsInvalidArgument st), (IsIOError st), (IsMergeInProgress st),
    (IsIncomplete st); cbn; (split; [done|]);
    (split; [rewrite !elem_of_cons; tauto|]);
    first [by exists "" | by exists "Unknown error: "].
Qed.

(** X2. For a status that is not ok and falls in one category only, as the
    engine's statuses do, the kind raised is that category's, whatever its
    place in the order of the tests, and the message is the text of the
    status. *)
Theorem check_status_single_category (st : Status) (p : Status -> bool)
    (cls : ExcClass) :
  ok st = false ->
  (p, cls) ∈ spec_priority ->
  p st = true ->
  (forall q cls', (q, cls') ∈ spec_priority -> q st = true -> cls' = cls) ->
  check_status st = Raise (mkErr cls (ToString st)).
Proof.
  intros Hok Hin Hp Honly.
  assert (forall q cls', (q, cls') ∈ spec_priority -> cls' <> cls -> q st = false)
    as Hoff.
  { intros q cls' Hq Hne. destruct (q st) eqn:Hqs; [|done].
    by specialize (Honly q cls' Hq Hqs). }
  unfold spec_priority in Hin, Hoff.
  unfold check_status. rewrite Hok.
  repeat (apply elem_of_cons in Hin as [[= -> ->]|Hin];
          [rewrite ?Hp;
           repeat (rewrite (Hoff _ _) by
                     (first [by rewrite !elem_of_cons; eauto 10 | done]));
           try reflexivity|]).
  all: try by apply elem_of_nil in Hin.
Qed.

Lemma check_status_single_category_witness :
  check_status st_corruption = Raise (mkErr Corruption (ToString st_corruption)).
Proof.
  apply (check_status_single_category st_corruption IsCorruption Corruption).
  - reflexivity.
  - unfold spec_priority. rewrite !elem_of_cons. tauto.
  - reflexivity.
  - intros q cls' Hq. unfold spec_priority in Hq.
    rewrite !elem_of_cons, elem_of_nil in Hq.
    destruct Hq as [Hq|[Hq|[Hq|[Hq|[Hq|[Hq|[Hq|[]]]]]]]];
      injection Hq as -> ->; cbn; congruence.
Defined.

(** ** Merge callbacks *)

Section MergeOutcomes.
Variable format_exc : PyErr -> string.

Lemma guarded_shape (who : string) (call : result PyData) (new_value : string)
    (log : list string) :
  merge_outcome_shape format_exc who new_value log
    (guarded format_exc who call new_value log).
Proof.
  unfold merge_outcome_shape, guarded.
  destruct (call ≫= _) as [[s|]|e]; [eauto|eauto|].
  destruct (is_Exception e) eqn:He; eauto 10.
Qed.

Lemma guarded_pair (who : string) (call : result PyData) (flag : PyScalar)
    (s : string) (rest : list PyScalar) (new_value : string)
    (log : list string) :
  call = Return (DTuple (flag :: SStr s :: rest)) ->
  guarded format_exc who call new_value log
  = if scalar_truth flag then mkMergeOutcome (Return true) s log
    else mkMergeOutcome (Return false) new_value log.
Proof. intros ->. unfold guarded. cbn. by destruct (scalar_truth flag). Qed.

Lemma guarded_not_subscriptable (who : string) (call : result PyData)
    (x : PyScalar) (new_value : string) (log : list string) :
  call = Return (DScalar x) ->
  (forall s, x <> SStr s) ->
  guarded format_exc who call new_value log
  = mkMergeOutcome (Return false) new_value
      (log ++ ["Error in " +:+ who +:+ ": "
               +:+ format_exc (mkErr TypeError "object is not subscriptable")]).
Proof.
  intros -> Hx. unfold guarded.
  destruct x as [| | |s]; cbn; try reflexivity. by destruct (Hx s).
Qed.

(** X3. Whatever the caller's method does, each of the three merge callbacks
    returns to the engine, in one of three ways: [True] with the log
    untouched; [False] with the value and the log untouched (the caller
    declined, or a fault that is not an [Exception] was dropped); [False]
    with the value untouched and one line for a contained [Exception]
    appended to the log.  So the value is only ever written together with
    [True], and no fault of any kind leaves a merge callback. *)
Theorem merge_callbacks_outcome_shape (ctx : UserObject) (k : string)
    (existing : option string) (v l r : string) (operands : list string)
    (new_value : string) (log : list string) :
  merge_outcome_shape format_exc "merge_callback" new_value log
    (merge_callback format_exc ctx k existing v new_value log)
  /\ merge_outcome_shape format_exc "full_merge_callback" new_value log
       (full_merge_callback format_exc ctx k existing operands new_value log)
  /\ merge_outcome_shape format_exc "partial_merge_callback" new_value log
       (partial_merge_callback format_exc ctx k l r new_value log).
Proof. repeat split; apply guarded_shape. Qed.

(** X4. When the caller's method returns a pair (flag, bytes): with a true
    flag the callback stores the bytes in the new value and returns [True];
    with a false flag it returns [False] and stores nothing; in both cases
    nothing is logged. *)
Theorem merge_callbacks_pair (ctx : UserObject) (k : string)
    (existing : option string) (v l r : string) (operands : list string)
    (flag : PyScalar) (s : string) (rest : list PyScalar)
    (new_value : string) (log : list string) :
  let merged := if scalar_truth flag then mkMergeOutcome (Return true) s log
                else mkMergeOutcome (Return false) new_value log in
  (ob_merge ctx k existing v = Return (DTuple (flag :: SStr s :: rest)) ->
   merge_callback format_exc ctx k existing v new_value log = merged)
  /\ (ob_full_merge ctx k existing operands
      = Return (DTuple (flag :: SStr s :: rest)) ->
      full_merge_callback format_exc ctx k existing operands new_value log
      = merged)
  /\ (ob_partial_merge ctx k l r = Return (DTuple (flag :: SStr s :: rest)) ->
      partial_merge_callback format_exc ctx k l r new_value log = merged).
Proof.
  cbn. repeat split; intros H;
    unfold merge_callback, full_merge_callback, partial_merge_callback;
    by rewrite (guarded_pair _ _ flag s rest).
Qed.

(** X5. When the caller's method returns [None], a boolean or an integer
    instead of a pair, the callback reports a failed merge: it returns
    [False], stores nothing and logs the [TypeError] of the subscript. *)
Theorem merge_callbacks_not_a_pair (ctx : UserObject) (k : string)
    (existing : option string) (v l r : string) (operands : list string)
    (x : PyScalar) (new_value : string) (log : list string) :
  (forall s, x <> SStr s) ->
  let failed who :=
    mkMergeOutcome (Return false) new_value
      (log ++ ["Error in " +:+ who +:+ ": "
               +:+ format_exc (mkErr TypeError "object is not subscriptable")]) in
  (ob_merge ctx k existing v = Return (DScalar x) ->
   merge_callback format_exc ctx k existing v new_value log
   = failed "merge_callback")
  /\ (ob_full_merge ctx k existing operands = Return (DScalar x) ->
      full_merge_callback format_exc ctx k existing operands new_value log
      = failed "full_merge_callback")
  /\ (ob_partial_merge ctx k l r = Return (DScalar x) ->
      partial_merge_callback format_exc ctx k l r new_value log
      = failed "partial_merge_callback").
Proof.
  intros Hx. cbn. repeat split; intros H;
    unfold merge_callback, full_merge_callback, partial_merge_callback;
    by rewrite (guarded_not_subscriptable _ _ x).
Qed.
End MergeOutcomes.

Lemma merge_callbacks_pair_witness :
  merge_callback (fun e => exc_msg e) append_merge "k" (Some "ab") "c" "" []
  = mkMergeOutcome (Return true) "abc" [].
Proof.
  apply (merge_callbacks_pair (fun e => exc_msg e) append_merge "k" (Some "ab")
           "c" "" "" [] (SBool true) "abc" [] "" []).
  reflexivity.
Defined.

Lemma merge_callbacks_not_a_pair_witness :
  partial_merge_callback (fun e => exc_msg e) append_merge "k" "a" "b" "" []
  = mkMergeOutcome (Return false) ""
      ["Error in partial_merge_callback: object is not subscriptable"].
Proof.
  apply (merge_callbacks_not_a_pair (fun e => exc_msg e) append_merge "k" None
           "" "a" "b" [] SNone "" []).
  - intros s. discriminate.
  - reflexivity.
Defined.

(** ** Options: the slots beyond the claims *)

Lemma raise_fmt_raises {A} (cls : ExcClass) (before after : string)
    (value : PyValue) :
  exists e, raise_fmt (A := A) cls before after value = Raise e.
Proof.
  unfold raise_fmt, percent_s.
  destruct value as [v|items| | | | |]; cbn; eauto.
  destruct items as [|x [|y rest]]; cbn; eauto.
Qed.

Lemma Options_setattr_raise_keeps (self self' : Options) (key : string)
    (value : PyValue) (e : PyErr) :
  Options_setattr self key value = (Raise e, self') -> self' = self.
Proof.
  unfold Options_setattr, compression_set, comparator_set, merge_operator_set,
    filter_policy_set, block_cache_set, block_cache_compressed_set, scalar_set.
  repeat case_match; intros; simplify_eq; done.
Qed.

(** X6. A set of the compression setting or of one of the five slots
    (comparator, merge_operator, filter_policy, block_cache,
    block_cache_compressed) that raises, whatever the value and whatever
    the reason, leaves the configuration exactly as it was. *)
Theorem slot_set_failure_keeps (self self' : Options) (value : PyValue)
    (e : PyErr) :
  compression_set self value = (Raise e, self')
  \/ comparator_set self value = (Raise e, self')
  \/ merge_operator_set self value = (Raise e, self')
  \/ filter_policy_set self value = (Raise e, self')
  \/ block_cache_set self value = (Raise e, self')
  \/ block_cache_compressed_set self value = (Raise e, self') ->
  self' = self.
Proof.
  unfold compression_set, comparator_set, merge_operator_set,
    filter_policy_set, block_cache_set, block_cache_compressed_set.
  intros [H|[H|[H|[H|[H|H]]]]]; revert H;
    repeat case_match; intros; simplify_eq; done.
Qed.

Lemma slot_set_failure_keeps_witness :
  (merge_operator_set fresh_options VNone).2 = fresh_options.
Proof.
  apply (slot_set_failure_keeps fresh_options _ VNone
           (mkErr TypeError "Cannot set MergeOperator: None")).
  right. right. left. reflexivity.
Defined.

Lemma PyGenericComparator_cinit_ptr (value : PyValue) (c : PyComparator) :
  PyGenericComparator_cinit value = Return c ->
  exists u name, value = VUser u /\ is_IComparator u = true
    /\ ob_name u ≫= data_as_string = Return name
    /\ c = PyGenericComparator u (ComparatorWrapper name u).
Proof.
  unfold PyGenericComparator_cinit.
  destruct value as [v|items|u|c'|p|c'|s].
  all: try (intros H;
            match type of H with
            | raise_fmt ?cls ?b ?a ?x = _ =>
                destruct (raise_fmt_raises (A := PyComparator) cls b a x)
                  as [e He]; rewrite He in H; discriminate
            end).
  destruct (is_IComparator u) eqn:Hi.
  - destruct (ob_name u) as [[[| | |name]|items]|e] eqn:Hn; cbn;
      try discriminate.
    intros [= <-]. exists u, name. by rewrite Hn.
  - intros H.
    destruct (raise_fmt_raises (A := PyComparator) TypeError
                "Cannot set comparator: " "" (VUser u)) as [e He].
    rewrite He in H. discriminate.
Qed.

Lemma PyGenericFilterPolicy_cinit_ptr (value : PyValue) (p : PyFilterPolicy) :
  PyGenericFilterPolicy_cinit value = Return p ->
  exists u name, value = VUser u /\ is_IFilterPolicy u = true
    /\ ob_name u ≫= data_as_string = Return name
    /\ p = PyGenericFilterPolicy u (FilterPolicyWrapper name u).
Proof.
  unfold PyGenericFilterPolicy_cinit.
  destruct value as [v|items|u|c'|p'|c'|s].
  all: try (intros H;
            match type of H with
            | raise_fmt ?cls ?b ?a ?x = _ =>
                destruct (raise_fmt_raises (A := PyFilterPolicy) cls b a x)
                  as [e He]; rewrite He in H; discriminate
            end).
  destruct (is_IFilterPolicy u) eqn:Hi.
  - destruct (ob_name u) as [[[| | |name]|items]|e] eqn:Hn; cbn;
      try discriminate.
    intros [= <-]. exists u, name. by rewrite Hn.
  - intros H.
    destruct (raise_fmt_raises (A := PyFilterPolicy) TypeError
                "Cannot set filter policy: " "" (VUser u)) as [e He].
    rewrite He in H. discriminate.
Qed.

(** One assignment keeps the engine's options and the Python objects of the
    slots in agreement. *)
Lemma Options_setattr_in_sync (self : Options) (key : string) (value : PyValue) :
  slots_in_sync self -> slots_in_sync (Options_setattr self key value).2.
Proof.
  intros (Hc & Hm & Hf & Hb & Hbc & Hs).
  destruct (Options_setattr self key value) as [[[]|e] self'] eqn:Hset.
  2: { apply Options_setattr_raise_keeps in Hset. subst. done. }
  revert Hset.
  unfold Options_setattr, compression_set, comparator_set, merge_operator_set,
    filter_policy_set, block_cache_set, block_cache_compressed_set, scalar_set.
  repeat case_match; intros; simplify_eq; unfold slots_in_sync; cbn;
    repeat split; try done.
  all: try match goal with
           | H : PyGenericComparator_cinit _ = Return _ |- _ =>
               apply PyGenericComparator_cinit_ptr in H
                 as (u & name & _ & _ & _ & ->); cbn; eauto
           end.
Qed.

Lemma Options_init_loop_in_sync (kwargs : list (string * PyValue))
    (self : Options) :
  slots_in_sync self -> slots_in_sync (Options_init_loop self kwargs).2.
Proof.
  revert self. induction kwargs as [|[key value] rest IH]; intros self Hs;
    cbn; [done|].
  pose proof (Options_setattr_in_sync self key value Hs) as Hstep.
  destruct (Options_setattr self key value) as [[[]|e] mid]; cbn in *; auto.
Qed.

Lemma assign_all_in_sync (later : list (string * PyValue)) (self : Options) :
  slots_in_sync self -> slots_in_sync (assign_all self later).
Proof.
  revert self. induction later as [|[key value] rest IH]; intros self Hs;
    cbn; [done|].
  apply IH. by apply Options_setattr_in_sync.
Qed.

(** X7. Whatever keyword arguments a configuration is built with, and
    whatever attributes are assigned afterwards, successfully or not: the
    engine's options hold exactly the native objects of the comparator,
    merge operator, filter policy and caches kept in the slots, and the
    engine's comparator pointer is never NULL. *)
Theorem Options_slots_always_in_sync (kwargs later : list (string * PyValue)) :
  slots_in_sync (assign_all (Options_init kwargs).2 later).
Proof.
  apply assign_all_in_sync. unfold Options_init.
  apply Options_init_loop_in_sync. unfold slots_in_sync; cbn. eauto 10.
Qed.

(** X8. After a successful set of the comparator slot, reading the slot
    gives back the caller's object (the wrapped object when a generic
    wrapper was passed), the engine has a comparator, and the four other
    slots read as before. *)
Theorem comparator_set_then_get (self self' : Options) (value : PyValue) :
  comparator_set self value = (Return tt, self') ->
  comparator_get self' = match value with
                         | VComparator (PyGenericComparator ob _) => VUser ob
                         | _ => value
                         end
  /\ n_comparator (opts self') = get_comparator (py_comparator self')
  /\ is_Some (n_comparator (opts self'))
  /\ merge_operator_get self' = merge_operator_get self
  /\ filter_policy_get self' = filter_policy_get self
  /\ block_cache_get self' = block_cache_get self
  /\ block_cache_compressed_get self' = block_cache_compressed_get self.
Proof.
  unfold comparator_set.
  destruct value as [v|items|u|c|p|c|s].
  4: { destruct c; cbn; [discriminate| |]; intros [= <-]; cbn; eauto 10. }
  all: match goal with
       | |- context [PyGenericComparator_cinit ?x] =>
           destruct (PyGenericComparator_cinit x) as [g|e] eqn:Hc;
           [|discriminate];
           apply PyGenericComparator_cinit_ptr in Hc
             as (u' & name & Hv & _ & _ & ->);
           try discriminate; injection Hv as <-;
           intros [= <-]; cbn; eauto 10
       end.
Qed.

Lemma comparator_set_then_get_witness :
  comparator_get (comparator_set fresh_options (VUser faulty_comparator)).2
  = VUser faulty_comparator.
Proof.
  apply (comparator_set_then_get fresh_options _ (VUser faulty_comparator)).
  reflexivity.
Defined.

(** X9. An object that implements one of the two merge operator interfaces
    and whose [name] returns a string is accepted by the merge_operator
    slot: the slot reads back the object, the engine gets a wrapper with
    that name -- the associative wrapper whenever the object implements the
    associative interface, also when it implements both -- and the
    comparator slot is left alone. *)
Theorem merge_operator_set_then_get (self : Options) (u : UserObject)
    (name : string) :
  is_IAssociativeMergeOperator u || is_IMergeOperator u = true ->
  ob_name u = Return (DScalar (SStr name)) ->
  exists self',
    merge_operator_set self (VUser u) = (Return tt, self')
    /\ merge_operator_get self' = VUser u
    /\ n_merge_operator (opts self')
       = Some (if is_IAssociativeMergeOperator u
               then AssociativeMergeOperatorWrapper name u
               else MergeOperatorWrapper name u)
    /\ comparator_get self' = comparator_get self.
Proof.
  intros Hi Hn. unfold merge_operator_set, PyMergeOperator_cinit.
  rewrite Hn.
  destruct (is_IAssociativeMergeOperator u); cbn in *; [eauto 10|].
  rewrite Hi. cbn. eauto 10.
Qed.

Lemma merge_operator_set_then_get_witness :
  exists self',
    merge_operator_set fresh_options (VUser append_merge) = (Return tt, self')
    /\ merge_operator_get self' = VUser append_merge
    /\ n_merge_operator (opts self')
       = Some (AssociativeMergeOperatorWrapper "append" append_merge)
    /\ comparator_get self' = comparator_get fresh_options.
Proof.
  apply (merge_operator_set_then_get fresh_options append_merge "append");
    reflexivity.
Defined.

(** X10. Any value that implements neither merge operator interface --
    [None] included, so the slot cannot be cleared -- is turned down by the
    merge_operator slot with a [TypeError], and the configuration is left as
    it was. *)
Theorem merge_operator_set_rejects (self : Options) (value : PyValue) :
  (forall u, value = VUser u ->
     is_IAssociativeMergeOperator u = false /\ is_IMergeOperator u = false) ->
  exists msg,
    merge_operator_set self value = (Raise (mkErr TypeError msg), self).
Proof.
  intros Hv. unfold merge_operator_set, PyMergeOperator_cinit.
  destruct value as [v|items|u|c|p|c|s].
  3: destruct (Hv u eq_refl) as [-> ->].
  all: match goal with
       | |- context [raise_fmt TypeError ?b ?a ?x] =>
           destruct (raise_fmt_TypeError (A := PyMergeOperator) b a x)
             as [msg Hm]; rewrite Hm; eauto
       end.
Qed.

Lemma merge_operator_set_rejects_witness :
  exists msg,
    merge_operator_set fresh_options VNone
    = (Raise (mkErr TypeError msg), fresh_options).
Proof.
  apply (merge_operator_set_rejects fresh_options VNone).
  intros u. discriminate.
Defined.

(** X11. After a successful set of the filter_policy slot, reading the slot
    gives back the caller's object (the wrapped object when a generic
    wrapper was passed, the built-in bloom policy itself otherwise), the
    engine holds that policy, and the comparator slot is left alone. *)
Theorem filter_policy_set_then_get (self self' : Options) (value : PyValue) :
  filter_policy_set self value = (Return tt, self') ->
  filter_policy_get self' = match value with
                            | VFilterPolicy (PyGenericFilterPolicy ob _) =>
                                VUser ob
                            | _ => value
                            end
  /\ is_Some (n_filter_policy (opts self'))
  /\ n_filter_policy (opts self') = py_filter_policy self' ≫= get_policy
  /\ comparator_get self' = comparator_get self.
Proof.
  unfold filter_policy_set.
  destruct value as [v|items|u|c|p|c|s].
  5: { destruct p; cbn; [discriminate| |]; intros [= <-]; cbn; eauto 10. }
  all: match goal with
       | |- context [PyGenericFilterPolicy_cinit ?x] =>
           destruct (PyGenericFilterPolicy_cinit x) as [g|e] eqn:Hc;
           [|discriminate];
           apply PyGenericFilterPolicy_cinit_ptr in Hc
             as (u' & name & Hv & _ & _ & ->);
           try discriminate; injection Hv as <-;
           intros [= <-]; cbn; eauto 10
       end.
Qed.

Lemma filter_policy_set_then_get_witness :
  filter_policy_get (filter_policy_set fresh_options (VUser pass_filter)).2
  = VUser pass_filter.
Proof.
  apply (filter_policy_set_then_get fresh_options _ (VUser pass_filter)).
  reflexivity.
Defined.

(** X12. The filter_policy slot turns down a bare [PyFilterPolicy] with a
    plain [Exception] and any other value that does not implement the
    filter policy interface -- [None] included -- with a [TypeError]; the
    configuration is left as it was. *)
Theorem filter_policy_set_rejects (self : Options) (value : PyValue) :
  match value with
  | VFilterPolicy p => get_policy p = None
  | VUser u => is_IFilterPolicy u = false
  | _ => True
  end ->
  exists e, filter_policy_set self value = (Raise e, self)
    /\ exc_class e = match value with
                     | VFilterPolicy _ => Exception_
                     | _ => TypeError
                     end.
Proof.
  unfold filter_policy_set, PyGenericFilterPolicy_cinit.
  intros H.
  destruct value as [v|items|u|c|p|c|s].
  5: { destruct p; cbn in *; try discriminate. eauto. }
  3: rewrite H.
  all: match goal with
       | |- context [raise_fmt TypeError ?b ?a ?x] =>
           destruct (raise_fmt_TypeError (A := PyFilterPolicy) b a x)
             as [msg Hm]; rewrite Hm; eauto
       end.
Qed.

Lemma filter_policy_set_rejects_witness :
  exists e, filter_policy_set fresh_options (VUser faulty_comparator)
            = (Raise e, fresh_options)
    /\ exc_class e = TypeError.
Proof.
  apply (filter_policy_set_rejects fresh_options (VUser faulty_comparator)).
  reflexivity.
Defined.

(** X13. The two cache slots: assigning [None] clears the slot and the
    engine's pointer; assigning a cache object stores it, the slot reads
    back what the object's [get_ob] gives and the engine gets its cache;
    any other value raises a [TypeError] and changes nothing.  Neither slot
    ever touches the other one. *)
Theorem block_cache_slots (self : Options) (value : PyValue) :
  let a := block_cache_set self value in
  let b := block_cache_compressed_set self value in
  block_cache_compressed_get a.2 = block_cache_compressed_get self
  /\ n_block_cache_compressed (opts a.2) = n_block_cache_compressed (opts self)
  /\ block_cache_get b.2 = block_cache_get self
  /\ n_block_cache (opts b.2) = n_block_cache (opts self)
  /\ match value with
     | VScalar SNone =>
         a.1 = Return tt /\ b.1 = Return tt
         /\ block_cache_get a.2 = VNone /\ n_block_cache (opts a.2) = None
         /\ block_cache_compressed_get b.2 = VNone
         /\ n_block_cache_compressed (opts b.2) = None
     | VCache c =>
         a.1 = Return tt /\ b.1 = Return tt
         /\ block_cache_get a.2 = cache_get_ob c
         /\ n_block_cache (opts a.2) = get_cache c
         /\ block_cache_compressed_get b.2 = cache_get_ob c
         /\ n_block_cache_compressed (opts b.2) = get_cache c
     | _ =>
         (exists msg, a = (Raise (mkErr TypeError msg), self))
         /\ (exists msg, b = (Raise (mkErr TypeError msg), self))
     end.
Proof.
  unfold block_cache_set, block_cache_compressed_set.
  destruct value as [[| | |]|items|u|c|p|c|s]; cbn; repeat split; eauto.
  all: destruct items as [|x [|y rest]]; cbn; eauto.
Qed.

Example block_cache_shared :
  let o1 := (block_cache_set fresh_options (VCache demo_cache)).2 in
  let o2 := (block_cache_compressed_set o1 (VCache demo_cache)).2 in
  block_cache_get o2 = VCache demo_cache
  /\ block_cache_compressed_get o2 = VCache demo_cache
  /\ n_block_cache (opts o2) = n_block_cache_compressed (opts o2).
Proof. repeat split. Qed.

Lemma Options_init_keeps_slots_witness :
  let self :=
    (Options_init [("create_if_missing", VBool true);
                   ("compression", VStr "zlib_compression")]).2 in
  comparator_get self = VComparator BytewiseComparator
  /\ merge_operator_get self = VNone
  /\ filter_policy_get self = VNone
  /\ block_cache_get self = VNone
  /\ block_cache_compressed_get self = VNone.
Proof.
  apply (Options_init_keeps_slots
           [("create_if_missing", VBool true);
            ("compression", VStr "zlib_compression")]).
  - repeat constructor; unfold slot_names; cbn;
      rewrite !elem_of_cons, elem_of_nil; intros H;
      repeat destruct H as [H|H]; discriminate || done.
  - reflexivity.
Defined.

(** ** DB: what the read operations raise *)

Lemma bind_param_raise_class (args : list PyValue) (kwargs : gmap string PyValue)
    (i : nat) (name : string) (default : PyValue) (e : PyErr) :
  bind_param args kwargs i name default = Raise e -> exc_class e = TypeError.
Proof. unfold bind_param. repeat case_match; intros [= <-]; done. Qed.

(** Binding the arguments of [__parse_read_opts] fails with a [TypeError]
    only. *)
Lemma parse_read_opts_raise_class (args : list PyValue)
    (kwargs : gmap string PyValue) (e : PyErr) :
  parse_read_opts args kwargs = Raise e -> exc_class e = TypeError.
Proof.
  unfold parse_read_opts.
  destruct (5 <? length args)%nat; [by intros [= <-]|].
  destruct (negb _); [by intros [= <-]|].
  repeat match goal with
         | |- context [bind_param ?a ?k ?i ?n ?d] =>
             let H := fresh "Hb" in
             let v := fresh "v" in
             destruct (bind_param a k i n d) as [v|?] eqn:H;
             [|apply bind_param_raise_class in H; cbn; by intros [= <-]]
         end.
  cbn. discriminate.
Qed.

(** The read options are not built only when binding the arguments has
    failed. *)
Lemma read_opts_of_raise (args : list PyValue) (kwargs : gmap string PyValue)
    (e : PyErr) :
  read_opts_of args kwargs = Raise e ->
  parse_read_opts args kwargs = Raise e /\ exc_class e = TypeError.
Proof.
  unfold read_opts_of.
  destruct (parse_read_opts args kwargs) as [d|e'] eqn:Hp; cbn; [discriminate|].
  intros [= <-]. split; [done|]. by eapply parse_read_opts_raise_class.
Qed.

Lemma check_status_NotFound_class (st : Status) (e : PyErr) :
  check_status st = Raise e -> exc_class e = NotFound -> IsNotFound st = true.
Proof.
  unfold check_status. repeat case_match; intros [= <-]; cbn; congruence.
Qed.

(** X15. [DB.get] never raises the Not-Found error, whatever the engine
    answers and whatever arguments and read options it is given. *)
Theorem DB_get_never_raises_NotFound (self : DB) (key : string)
    (args : list PyValue) (kwargs : gmap string PyValue) (e : PyErr) :
  DB_get self key args kwargs = Raise e -> exc_class e <> NotFound.
Proof.
  unfold DB_get.
  destruct (read_opts_of args kwargs) as [ro|e'] eqn:Hro; cbn.
  - destruct (Get (db self) ro key) as [st res].
    destruct (ok st); [discriminate|].
    destruct (IsNotFound st) eqn:Hnf; [discriminate|].
    destruct (check_status st) as [[]|e'] eqn:Hcs; cbn; [discriminate|].
    intros [= <-] Hcls.
    pose proof (check_status_NotFound_class st e' Hcs Hcls). congruence.
  - intros [= <-].
    destruct (read_opts_of_raise _ _ _ Hro) as [_ ->]. discriminate.
Qed.

Lemma DB_get_never_raises_NotFound_witness :
  DB_get demo_db "bad" [] ∅ = Raise (mkErr Corruption "Corruption: bad block")
  /\ exc_class (mkErr Corruption "Corruption: bad block") <> NotFound.
Proof.
  split; [reflexivity|].
  apply (DB_get_never_raises_NotFound demo_db "bad" [] ∅). reflexivity.
Defined.

Lemma multi_get_loop_raise_class (keys : list string) (res : list Status)
    (values : list string) (indices : list nat)
    (d0 : gmap string (option string)) (e : PyErr) :
  multi_get_loop keys res values indices d0 = Some (Raise e) ->
  exc_class e <> NotFound.
Proof.
  revert d0. induction indices as [|index rest IH]; intros d0; cbn;
    [discriminate|].
  destruct (keys !! index) as [k|]; [|discriminate].
  destruct (res !! index) as [st|]; [|discriminate].
  destruct (values !! index) as [v|]; [|discriminate].
  destruct (ok st); [apply IH|].
  destruct (IsNotFound st) eqn:Hnf; [apply IH|].
  destruct (check_status st) as [[]|e'] eqn:Hcs; [apply IH|].
  intros [= <-] Hcls.
  pose proof (check_status_NotFound_class st e' Hcs Hcls). congruence.
Qed.

(** X16. [DB.multi_get] never raises the Not-Found error either: a key that
    is not found never makes the batch fail. *)
Theorem DB_multi_get_never_raises_NotFound (self : DB) (keys : list string)
    (args : list PyValue) (kwargs : gmap string PyValue) (e : PyErr) :
  DB_multi_get self keys args kwargs = Some (Raise e) ->
  exc_class e <> NotFound.
Proof.
  unfold DB_multi_get.
  destruct (read_opts_of args kwargs) as [ro|e'] eqn:Hro.
  - destruct (MultiGet (db self) ro keys _) as [res values].
    apply multi_get_loop_raise_class.
  - intros [= <-].
    destruct (read_opts_of_raise _ _ _ Hro) as [_ ->]. discriminate.
Qed.

Lemma DB_multi_get_never_raises_NotFound_witness :
  DB_multi_get demo_db ["zz"; "bad"; "a"] [] ∅
  = Some (Raise (mkErr Corruption "Corruption: bad block"))
  /\ exc_class (mkErr Corruption "Corruption: bad block") <> NotFound.
Proof.
  split; [reflexivity|].
  apply (DB_multi_get_never_raises_NotFound demo_db ["zz"; "bad"; "a"] [] ∅).
  reflexivity.
Defined.

(** X17. [DB.key_may_exist] raises only when the binding of its arguments
    by [__parse_read_opts] raises, and then it raises that [TypeError];
    neither the engine nor the values of the read options make it raise. *)
Theorem DB_key_may_exist_raises_only_on_arguments (self : DB) (key : string)
    (fetch : PyValue) (args : list PyValue) (kwargs : gmap string PyValue)
    (e : PyErr) :
  DB_key_may_exist self key fetch args kwargs = Raise e ->
  parse_read_opts args kwargs = Raise e /\ exc_class e = TypeError.
Proof.
  unfold DB_key_may_exist.
  destruct (read_opts_of args kwargs) as [ro|e'] eqn:Hro; cbn.
  - destruct (py_truth fetch).
    + destruct (KeyMayExist_found (db self) ro key "" false) as [[ex v] found].
      repeat case_match; discriminate.
    + destruct (KeyMayExist (db self) ro key "") as [ex v]. discriminate.
  - intros [= <-]. by apply read_opts_of_raise.
Qed.

Lemma DB_key_may_exist_raises_only_on_arguments_witness :
  parse_read_opts [] {[ "tier" := VStr "all" ]}
  = Raise (mkErr TypeError "got an unexpected keyword argument")
  /\ exc_class (mkErr TypeError "got an unexpected keyword argument")
     = TypeError.
Proof.
  apply (DB_key_may_exist_raises_only_on_arguments demo_db "a" (VBool true) []
           {[ "tier" := VStr "all" ]}).
  vm_compute. reflexivity.
Defined.

(** ** DB: multi_get against get *)

Lemma last_occurrence (k : string) (l : list string) :
  k ∈ l ->
  exists j, l !! j = Some k /\ forall j', j < j' -> l !! j' <> Some k.
Proof.
  induction l as [|x l IH]; intros Hin; [by apply elem_of_nil in Hin|].
  destruct (decide (k ∈ l)) as [Hl|Hl].
  - destruct (IH Hl) as (j & Hj & Hlast).
    exists (S j). split; [done|].
    intros [|j'] Hlt; [lia|]. cbn. apply Hlast. lia.
  - apply elem_of_cons in Hin as [->|Hin]; [|done].
    exists 0. split; [done|].
    intros [|j'] Hlt; [lia|]. cbn. intros Hj'.
    apply Hl. by eapply list_elem_of_lookup_2.
Qed.

Lemma first_error (res : list Status) :
  (forall i st, res !! i = Some st -> is_error st = false)
  \/ exists i st, res !! i = Some st /\ is_error st = true
       /\ forall j st', j < i -> res !! j = Some st' -> is_error st' = false.
Proof.
  induction res as [|st res IH].
  - left. intros i st Hi. by rewrite lookup_nil in Hi.
  - destruct (is_error st) eqn:Hst.
    + right. exists 0, st. split; [done|]. split; [done|]. intros j st' Hj. lia.
    + destruct IH as [Hall|(i & st' & Hi & Herr & Hbefore)].
      * left. intros [|i] st' Hi; cbn in Hi; [by simplify_eq|by eapply Hall].
      * right. exists (S i), st'. split; [done|]. split; [done|].
        intros [|j] st'' Hj Hl; cbn in Hl; [by simplify_eq|].
        eapply Hbefore; [|done]. lia.
Qed.

(** [DB.get], once the read options are built, as a function of the
    engine's answer. *)
Lemma DB_get_of_status (self : DB) (key : string) (args : list PyValue)
    (kwargs : gmap string PyValue) (ro : ReadOptions) :
  read_opts_of args kwargs = Return ro ->
  let st := (Get (db self) ro key).1 in
  let v := (Get (db self) ro key).2 in
  (is_error st = false ->
   DB_get self key args kwargs = Return (entry_of st v))
  /\ (is_error st = true ->
      forall e, check_status st = Raise e ->
                DB_get self key args kwargs = Raise e).
Proof.
  intros Hro. unfold DB_get, is_error, entry_of. rewrite Hro. cbn.
  destruct (Get (db self) ro key) as [st v]. cbn.
  destruct (ok st), (IsNotFound st); cbn; split; try done.
  intros _ e ->. done.
Qed.

(** X18. When the engine's batched lookup answers each key as its single
    lookup does, [DB.multi_get] agrees with [DB.get]: the dictionary it
    returns binds every requested key to what [DB.get] returns for that
    key; and when it raises, it raises what [DB.get] raises for one of the
    requested keys.  It always does one or the other. *)
Theorem DB_multi_get_agrees_with_get (self : DB) (keys : list string)
    (args : list PyValue) (kwargs : gmap string PyValue) (ro : ReadOptions) :
  read_opts_of args kwargs = Return ro ->
  MultiGet (db self) ro keys (replicate (length keys) "")
  = (map (fun k => (Get (db self) ro k).1) keys,
     map (fun k => (Get (db self) ro k).2) keys) ->
  (exists d,
     DB_multi_get self keys args kwargs = Some (Return d)
     /\ forall k, k ∈ keys ->
          exists v, d !! k = Some v
                    /\ DB_get self k args kwargs = Return v)
  \/ (exists e k,
        DB_multi_get self keys args kwargs = Some (Raise e)
        /\ k ∈ keys /\ DB_get self k args kwargs = Raise e).
Proof.
  intros Hro Hmg. unfold DB_multi_get. rewrite Hro, Hmg.
  set (res := map (fun k => (Get (db self) ro k).1) keys).
  set (values := map (fun k => (Get (db self) ro k).2) keys).
  assert (length res = length keys) as Hres by apply length_map.
  assert (length values = length keys) as Hvalues by apply length_map.
  destruct (first_error res) as [Hok|(i & st & Hi & Herr & Hbefore)].
  - left.
    destruct (multi_get_loop_no_error keys res values Hres Hvalues
                (length keys) 0 ∅ eq_refl) as (d & Hd & _ & _ & Hin).
    { intros j st _. apply Hok. }
    exists d. split; [done|]. intros k Hk.
    destruct (last_occurrence k keys Hk) as (j & Hj & Hlast).
    destruct (Hin j k ltac:(lia) Hj Hlast) as (st & v & Hst & Hv & Hdk).
    exists (entry_of st v). split; [done|].
    unfold res in Hst. unfold values in Hv.
    rewrite list_lookup_fmap, Hj in Hst. rewrite list_lookup_fmap, Hj in Hv.
    cbn in Hst, Hv.
    injection Hst as <-. injection Hv as <-.
    apply (DB_get_of_status self k args kwargs ro Hro).
    apply (Hok j). unfold res. by rewrite list_lookup_fmap, Hj.
  - right.
    destruct (multi_get_loop_first_error keys res values Hres Hvalues
                (length keys) 0 i ∅ st eq_refl ltac:(lia) Hi Herr)
      as (e & He & Hloop).
    { intros j st' _. apply Hbefore. }
    unfold res in Hi. rewrite list_lookup_fmap in Hi.
    destruct (keys !! i) as [k|] eqn:Hk; [|discriminate].
    cbn in Hi. injection Hi as <-.
    exists e, k. split; [done|]. split; [by eapply list_elem_of_lookup_2|].
    by apply (DB_get_of_status self k args kwargs ro Hro).
Qed.

Lemma DB_multi_get_agrees_with_get_witness :
  (exists d,
     DB_multi_get demo_db ["a"; "b"; "a"] [] ∅ = Some (Return d)
     /\ forall k, k ∈ ["a"; "b"; "a"] ->
          exists v, d !! k = Some v /\ DB_get demo_db k [] ∅ = Return v)
  \/ (exists e k,
        DB_multi_get demo_db ["a"; "b"; "a"] [] ∅ = Some (Raise e)
        /\ k ∈ ["a"; "b"; "a"] /\ DB_get demo_db k [] ∅ = Raise e).
Proof.
  apply (DB_multi_get_agrees_with_get demo_db ["a"; "b"; "a"] [] ∅
           default_read_options); reflexivity.
Defined.

(** ** DB.get_live_files_metadata *)

Lemma live_files_loop_app (metadata : list LiveFileMetaData)
    (ret : list (gmap string PyValue)) :
  live_files_loop metadata ret = (ret ++ (live_file_dict <$> metadata))%list.
Proof.
  revert ret. induction metadata as [|ob rest IH]; intros ret; cbn.
  - by rewrite app_nil_r.
  - by rewrite IH, <- app_assoc.
Qed.

(** X19. [DB.get_live_files_metadata] returns one dictionary per file the
    engine reports, in the engine's order; the dictionary of a file has
    exactly the seven keys name, level, size, smallestkey, largestkey,
    smallest_seqno and largest_seqno, each bound to the file's field. *)
Theorem get_live_files_metadata_entries (metadata : list LiveFileMetaData)
    (i : nat) (ob : LiveFileMetaData) :
  metadata !! i = Some ob ->
  length (DB_get_live_files_metadata metadata) = length metadata
  /\ exists t,
       DB_get_live_files_metadata metadata !! i = Some t
       /\ dom t = list_to_set live_file_keys
       /\ t !! "name" = Some (VStr (lf_name ob))
       /\ t !! "level" = Some (VScalar (SInt (lf_level ob)))
       /\ t !! "size" = Some (VScalar (SInt (lf_size ob)))
       /\ t !! "smallestkey" = Some (VStr (lf_smallestkey ob))
       /\ t !! "largestkey" = Some (VStr (lf_largestkey ob))
       /\ t !! "smallest_seqno" = Some (VScalar (SInt (lf_smallest_seqno ob)))
       /\ t !! "largest_seqno" = Some (VScalar (SInt (lf_largest_seqno ob))).
Proof.
  intros Hi. unfold DB_get_live_files_metadata.
  rewrite live_files_loop_app. cbn. split; [apply length_fmap|].
  exists (live_file_dict ob). split; [by rewrite list_lookup_fmap, Hi|].
  unfold live_file_dict. split.
  - rewrite !dom_insert_L, dom_empty_L. unfold live_file_keys. cbn.
    apply set_eq. intros x.
    rewrite !elem_of_union, !elem_of_singleton, elem_of_empty. tauto.
  - repeat split; by simplify_map_eq.
Qed.

Lemma get_live_files_metadata_entries_witness :
  length (DB_get_live_files_metadata [demo_file]) = length [demo_file]
  /\ exists t,
       DB_get_live_files_metadata [demo_file] !! 0 = Some t
       /\ dom t = list_to_set live_file_keys
       /\ t !! "name" = Some (VStr (lf_name demo_file))
       /\ t !! "level" = Some (VScalar (SInt (lf_level demo_file)))
       /\ t !! "size" = Some (VScalar (SInt (lf_size demo_file)))
       /\ t !! "smallestkey" = Some (VStr (lf_smallestkey demo_file))
       /\ t !! "largestkey" = Some (VStr (lf_largestkey demo_file))
       /\ t !! "smallest_seqno"
          = Some (VScalar (SInt (lf_smallest_seqno demo_file)))
       /\ t !! "largest_seqno"
          = Some (VScalar (SInt (lf_largest_seqno demo_file))).
Proof.
  apply (get_live_files_metadata_entries [demo_file] 0 demo_file). reflexivity.
Defined.

(** ** Iterators: exhaustion, separation, full traversals *)

Section IteratorSteps.
Context {T : Type} (E : IteratorOps T).

(** X20. When [__next__] of a cursor raises, it raises [StopIteration] and
    has not moved the engine's cursor, so it raises again on every further
    call until a seek; and the reverse wrapper of the cursor raises
    [StopIteration] in the same state. *)
Theorem BaseIterator_next_exhausted_stays (self : BaseIterator)
    (h h' : gmap nat T) (e : PyErr) :
  BaseIterator_next E self h = Some (Raise e, h') ->
  h' = h /\ exc_class e = StopIteration
  /\ BaseIterator_next E self h' = Some (Raise e, h')
  /\ ReversedIterator_next E (BaseIterator_reversed self) h = Some (Raise e, h).
Proof.
  unfold ReversedIterator_next, BaseIterator_next. cbn.
  destruct (deref self h) as [c|] eqn:Hc; cbn; [|discriminate].
  destruct (Valid E c) eqn:Hv; cbn.
  - destruct (on_ptr self (Next E) h); cbn; discriminate.
  - intros [= <- <-]. rewrite Hc. cbn. by rewrite Hv.
Qed.

(** X21. Two iterators over different engine cursors do not disturb each
    other: a [__next__] or a seek through one of them, or through its
    reverse wrapper, leaves the cursor of the other where it was. *)
Theorem iterators_do_not_interfere (a b : BaseIterator) (h : gmap nat T)
    (k : string) :
  ptr a <> ptr b ->
  (forall r h', BaseIterator_next E a h = Some (r, h') ->
                deref b h' = deref b h)
  /\ (forall r h',
        ReversedIterator_next E (BaseIterator_reversed a) h = Some (r, h') ->
        deref b h' = deref b h)
  /\ (forall h', BaseIterator_seek_to_first E a h = Some h' ->
                 deref b h' = deref b h)
  /\ (forall h', BaseIterator_seek_to_last E a h = Some h' ->
                 deref b h' = deref b h)
  /\ (forall h', BaseIterator_seek E a k h = Some h' ->
                 deref b h' = deref b h).
Proof.
  intros Hne.
  assert (forall m h', on_ptr a m h = Some h' -> deref b h' = deref b h) as Hmove.
  { intros m h' Hm. unfold deref. destruct (ptr b) as [q|] eqn:Hq; cbn; [|done].
    eapply on_ptr_other; [done|]. congruence. }
  unfold BaseIterator_next, ReversedIterator_next, BaseIterator_seek_to_first,
    BaseIterator_seek_to_last, BaseIterator_seek. cbn.
  repeat split; eauto.
  all: intros r h'; destruct (deref a h) as [c|]; cbn; [|discriminate];
    destruct (Valid E c); cbn; [|by intros [= <- <-]].
  all: match goal with
       | |- context [on_ptr ?x ?m ?y] =>
           destruct (on_ptr x m y) as [h1|] eqn:Hm; cbn; [|discriminate];
           intros [= <- <-]; by eapply Hmove
       end.
Qed.
End IteratorSteps.

Lemma BaseIterator_next_exhausted_stays_witness :
  demo_heap = demo_heap
  /\ exc_class (mkErr StopIteration "") = StopIteration
  /\ BaseIterator_next ListCursor.ops demo_iterator demo_heap
     = Some (Raise (mkErr StopIteration ""), demo_heap)
  /\ ReversedIterator_next ListCursor.ops (BaseIterator_reversed demo_iterator)
       demo_heap
     = Some (Raise (mkErr StopIteration ""), demo_heap).
Proof.
  apply (BaseIterator_next_exhausted_stays ListCursor.ops demo_iterator
           demo_heap demo_heap (mkErr StopIteration "")).
  reflexivity.
Defined.

Lemma iterators_do_not_interfere_witness :
  deref demo_values_iterator demo_heap2
  = Some (ListCursor.at_ demo_entries 1)
  /\ forall h',
       BaseIterator_seek_to_last ListCursor.ops demo_iterator demo_heap2
       = Some h' ->
       deref demo_values_iterator h' = deref demo_values_iterator demo_heap2.
Proof.
  split; [reflexivity|].
  apply (iterators_do_not_interfere ListCursor.ops demo_iterator
           demo_values_iterator demo_heap2 "").
  discriminate.
Defined.

(** ** Full traversals over a list cursor *)

Section Traversals.
Variables (self : BaseIterator) (p : nat) (l : list (string * string)).
Hypothesis Hptr : ptr self = Some p.

Lemma get_ob_current (c : ListCursor.t) (e : string * string) :
  ListCursor.current c = Some e ->
  Valid ListCursor.ops c = true
  /\ get_ob ListCursor.ops self c = entry_ob (it_cls self) e.
Proof.
  intros Hc. unfold get_ob, entry_ob. cbn. rewrite Hc. cbn.
  split; [done|by destruct (it_cls self)].
Qed.

Lemma at_in_range (i : nat) :
  i < length l -> ListCursor.at_ l i = ListCursor.mk l (Some i).
Proof.
  intros Hi. unfold ListCursor.at_.
  by rewrite (proj2 (Nat.ltb_lt _ _) Hi).
Qed.

Lemma at_out_of_range (i : nat) :
  length l <= i -> ListCursor.at_ l i = ListCursor.mk l None.
Proof.
  intros Hi. unfold ListCursor.at_.
  by rewrite (proj2 (Nat.ltb_ge _ _) Hi).
Qed.

(** On a cursor that is on no entry, the loop ends at once. *)
Lemma collect_off (h : gmap nat ListCursor.t) (fuel : nat) :
  h !! p = Some (ListCursor.mk l None) ->
  BaseIterator_collect ListCursor.ops self (S fuel) h = Some ([], h)
  /\ ReversedIterator_collect ListCursor.ops (BaseIterator_reversed self)
       (S fuel) h = Some ([], h).
Proof.
  intros Hh. cbn.
  unfold BaseIterator_next, ReversedIterator_next, deref. cbn.
  rewrite Hptr. cbn. rewrite Hh. cbn. done.
Qed.

Lemma collect_forward (k i : nat) (h : gmap nat ListCursor.t) :
  i + k = length l ->
  h !! p = Some (ListCursor.at_ l i) ->
  fst <$> BaseIterator_collect ListCursor.ops self (S k) h
  = Some (entry_ob (it_cls self) <$> drop i l).
Proof.
  revert i h. induction k as [|k IH]; intros i h Hlen Hh.
  - rewrite at_out_of_range in Hh by lia.
    rewrite (proj1 (collect_off h 0 Hh)). cbn. by rewrite drop_ge by lia.
  - rewrite at_in_range in Hh by lia.
    destruct (lookup_lt_is_Some_2 l i ltac:(lia)) as [e He].
    destruct (get_ob_current (ListCursor.mk l (Some i)) e He) as [Hv Hob].
    rewrite (drop_S l e i He).
    change (BaseIterator_collect ListCursor.ops self (S (S k)) h)
      with (match BaseIterator_next ListCursor.ops self h with
            | None => None
            | Some (Raise _, h') => Some ([], h')
            | Some (Return x, h') =>
                match BaseIterator_collect ListCursor.ops self (S k) h' with
                | None => None
                | Some (xs, h'') => Some (x :: xs, h'')
                end
            end).
    unfold BaseIterator_next, deref, on_ptr. rewrite Hptr. cbn [mbind option_bind].
    rewrite Hh. cbn [mbind option_bind]. rewrite Hv, Hob. cbn [negb].
    specialize (IH (S i) (<[p := ListCursor.at_ l (S i)]> h) ltac:(lia)
                   ltac:(apply lookup_insert_eq)).
    change (Next ListCursor.ops (ListCursor.mk l (Some i)))
      with (ListCursor.at_ l (S i)).
    destruct (BaseIterator_collect ListCursor.ops self (S k) _) as [[xs h'']|];
      cbn in IH |- *; [|discriminate].
    by injection IH as ->.
Qed.

Lemma collect_backward (i : nat) (h : gmap nat ListCursor.t) :
  i < length l ->
  h !! p = Some (ListCursor.mk l (Some i)) ->
  fst <$> ReversedIterator_collect ListCursor.ops (BaseIterator_reversed self)
            (S (S i)) h
  = Some (entry_ob (it_cls self) <$> reverse (take (S i) l)).
Proof.
  revert h. induction i as [|i IH]; intros h Hlen Hh.
  all: destruct (lookup_lt_is_Some_2 l _ Hlen) as [e He].
  all: destruct (get_ob_current (ListCursor.mk l (Some _)) e He) as [Hv Hob].
  all: rewrite (take_S_r l _ e He), reverse_snoc, fmap_cons.
  all: match goal with
       | |- context [ReversedIterator_collect ?E ?r (S ?f) ?h0] =>
           change (ReversedIterator_collect E r (S f) h0)
             with (match ReversedIterator_next E r h0 with
                   | None => None
                   | Some (Raise _, h') => Some ([], h')
                   | Some (Return x, h') =>
                       match ReversedIterator_collect E r f h' with
                       | None => None
                       | Some (xs, h'') => Some (x :: xs, h'')
                       end
                   end)
       end.
  all: unfold ReversedIterator_next, deref, on_ptr; cbn [it BaseIterator_reversed];
    rewrite Hptr; cbn [mbind option_bind]; rewrite Hh; cbn [mbind option_bind];
    rewrite Hv, Hob; cbn [negb].
  - change (Prev ListCursor.ops (ListCursor.mk l (Some 0)))
      with (ListCursor.mk l None).
    rewrite (proj2 (collect_off (<[p := ListCursor.mk l None]> h) 0
                      ltac:(apply lookup_insert_eq))).
    reflexivity.
  - change (Prev ListCursor.ops (ListCursor.mk l (Some (S i))))
      with (ListCursor.at_ l i).
    rewrite at_in_range by lia.
    specialize (IH (<[p := ListCursor.mk l (Some i)]> h) ltac:(lia)
                   ltac:(apply lookup_insert_eq)).
    destruct (ReversedIterator_collect ListCursor.ops _ (S (S i)) _)
      as [[xs h'']|]; cbn in IH |- *; [|discriminate].
    by injection IH as ->.
Qed.
End Traversals.

(** X22. Over an engine cursor on a list of entries: after
    [seek_to_first], running the iterator to its end ([__next__] until
    [StopIteration]) yields every entry once, in the order of the list --
    the key, the value or the pair, by the class of the iterator -- and
    takes one call more than there are entries. *)
Theorem forward_traversal_yields_all (self : BaseIterator) (p : nat)
    (c : ListCursor.t) (h : gmap nat ListCursor.t) :
  ptr self = Some p ->
  h !! p = Some c ->
  (h1 ← BaseIterator_seek_to_first ListCursor.ops self h;
   fst <$> BaseIterator_collect ListCursor.ops self
             (S (length (ListCursor.entries c))) h1)
  = Some (entry_ob (it_cls self) <$> ListCursor.entries c).
Proof.
  intros Hptr Hh. unfold BaseIterator_seek_to_first, on_ptr.
  rewrite Hptr. cbn [mbind option_bind]. rewrite Hh. cbn [mbind option_bind].
  change (SeekToFirst ListCursor.ops c)
    with (ListCursor.at_ (ListCursor.entries c) 0).
  rewrite (collect_forward self p (ListCursor.entries c) Hptr
             (length (ListCursor.entries c)) 0); [done|lia|].
  apply lookup_insert_eq.
Qed.

Lemma forward_traversal_yields_all_witness :
  (h1 ← BaseIterator_seek_to_first ListCursor.ops demo_iterator demo_heap;
   fst <$> BaseIterator_collect ListCursor.ops demo_iterator 4 h1)
  = Some [VStr "a"; VStr "b"; VStr "c"].
Proof.
  apply (forward_traversal_yields_all demo_iterator 0
           (ListCursor.mk demo_entries None) demo_heap); reflexivity.
Defined.

(** X23. Over the same cursor: after [seek_to_last] through the reverse
    wrapper, running the wrapper to its end yields every entry once, in the
    reverse order of the list. *)
Theorem reverse_traversal_yields_all_reversed (self : BaseIterator) (p : nat)
    (c : ListCursor.t) (h : gmap nat ListCursor.t) :
  ptr self = Some p ->
  h !! p = Some c ->
  (h1 ← ReversedIterator_seek_to_last ListCursor.ops
          (BaseIterator_reversed self) h;
   fst <$> ReversedIterator_collect ListCursor.ops (BaseIterator_reversed self)
             (S (length (ListCursor.entries c))) h1)
  = Some (entry_ob (it_cls self) <$> reverse (ListCursor.entries c)).
Proof.
  intros Hptr Hh.
  unfold ReversedIterator_seek_to_last, BaseIterator_seek_to_last, on_ptr.
  cbn [it BaseIterator_reversed].
  rewrite Hptr. cbn [mbind option_bind]. rewrite Hh. cbn [mbind option_bind].
  change (SeekToLast ListCursor.ops c)
    with (ListCursor.at_ (ListCursor.entries c)
            (length (ListCursor.entries c) - 1)).
  destruct (ListCursor.entries c) as [|e l'] eqn:Hl.
  - rewrite (proj2 (collect_off self p [] Hptr _ 0
                      ltac:(apply lookup_insert_eq))).
    reflexivity.
  - rewrite at_in_range by (cbn; lia).
    replace (S (length (e :: l'))) with (S (S (length (e :: l') - 1)))
      by (cbn; lia).
    rewrite (collect_backward self p (e :: l') Hptr (length (e :: l') - 1));
      [| cbn; lia | apply lookup_insert_eq].
    replace (S (length (e :: l') - 1)) with (length (e :: l')) by (cbn; lia).
    by rewrite firstn_all.
Qed.

Lemma reverse_traversal_yields_all_reversed_witness :
  (h1 ← ReversedIterator_seek_to_last ListCursor.ops
          (BaseIterator_reversed demo_iterator) demo_heap;
   fst <$> ReversedIterator_collect ListCursor.ops
             (BaseIterator_reversed demo_iterator) 4 h1)
  = Some [VStr "c"; VStr "b"; VStr "a"].
Proof.
  apply (reverse_traversal_yields_all_reversed demo_iterator 0
           (ListCursor.mk demo_entries None) demo_heap); reflexivity.
Defined.
